(** * MetaCall Jupyter kernel: command dispatch of [metacall_jupyter/kernel.py]

    A shallow embedding of [do_execute] and [do_shutdown] and of the helper
    functions nested inside [do_execute] (the magic parser, the router, the
    handlers that talk to the persistent REPL process, the one-shot script
    runner and the output clean-up), followed by the properties the
    specification states about them.

    Conventions of the embedding.
    - A Python [str] is a Rocq [string]: a sequence of code points below
      256.  The library functions used by the kernel ([split], [lstrip],
      [lower], [splitlines], [in], [re.sub], [repr] of [bytes]) are written
      out for that range, following CPython.
    - Python [bytes] are [list byte].
    - The kernel object, the file system and the REPL process form an
      explicit [world]; the programs the kernel spawns and the [json]
      module are collaborators gathered in a [host] record.
    - A call either returns, raises, or never returns: see [outcome]. *)

From Stdlib Require Import Strings.String Strings.Ascii Strings.Byte List ZArith Lia Bool.
From stdpp Require Import base option gmap strings.

Import ListNotations.
Local Open Scope list_scope.
Local Open Scope nat_scope.

(* ================================================================== *)
(** ** Python text primitives *)
(* ================================================================== *)

Module Text.

(** The one-character string holding the line feed, Python's ["\n"]. *)
Definition LF : ascii := "010"%char.
Definition CR : ascii := "013"%char.
Definition nl : string := String LF EmptyString.

Definition ascii_in (c : ascii) (chars : string) : bool :=
  existsb (Ascii.eqb c) (list_ascii_of_string chars).

(** [s.startswith(p)] *)
Definition startswith (s p : string) : bool := String.prefix p s.

(** [sub in s] *)
Fixpoint contains (sub s : string) : bool :=
  String.prefix sub s ||
  match s with
  | EmptyString => false
  | String _ s' => contains sub s'
  end.

(** [s.split(sep)] for a non-empty separator: cut at every occurrence
    found scanning from the left; [skip] counts the characters of a
    separator that are still to be consumed. *)
Fixpoint split_from (sep : string) (skip : nat) (s : string) : list string :=
  match s with
  | EmptyString => [EmptyString]
  | String c s' =>
      match skip with
      | S k => split_from sep k s'
      | O =>
          if String.prefix sep s
          then EmptyString :: split_from sep (String.length sep - 1) s'
          else match split_from sep 0 s' with
               | l :: ls => String c l :: ls
               | [] => [String c EmptyString]
               end
      end
  end.

Definition split (sep s : string) : list string := split_from sep 0 s.

(** [s.split("\n", 1)]: at most one cut, at the first line feed. *)
Fixpoint split_nl_once (s : string) : list string :=
  match s with
  | EmptyString => [EmptyString]
  | String c s' =>
      if Ascii.eqb c LF then [EmptyString; s']
      else match split_nl_once s' with
           | l :: ls => String c l :: ls
           | [] => [String c EmptyString]
           end
  end.

(** [sep.join(ls)] *)
Definition join (sep : string) (ls : list string) : string :=
  String.concat sep ls.

(** [s.lstrip(chars)]: [chars] is a set of characters, not a prefix. *)
Fixpoint lstrip_chars (chars s : string) : string :=
  match s with
  | EmptyString => EmptyString
  | String c s' => if ascii_in c chars then lstrip_chars chars s' else s
  end.

(** White space as [str.lstrip()] sees it, below code point 256:
    U+0009..U+000D, U+001C..U+0020, U+0085 and U+00A0. *)
Definition is_space (c : ascii) : bool :=
  let n := nat_of_ascii c in
  ((9 <=? n) && (n <=? 13)) || ((28 <=? n) && (n <=? 32))
  || (n =? 133) || (n =? 160).

(** [s.lstrip()] *)
Fixpoint lstrip (s : string) : string :=
  match s with
  | EmptyString => EmptyString
  | String c s' => if is_space c then lstrip s' else s
  end.

(** [s.lower()] below code point 256: A-Z, and the Latin-1 capitals
    U+00C0..U+00DE except the multiplication sign U+00D7. *)
Definition lower_char (c : ascii) : ascii :=
  let n := nat_of_ascii c in
  if ((65 <=? n) && (n <=? 90))
     || ((192 <=? n) && (n <=? 222) && negb (n =? 215))
  then ascii_of_nat (n + 32) else c.

Fixpoint lower (s : string) : string :=
  match s with
  | EmptyString => EmptyString
  | String c s' => String (lower_char c) (lower s')
  end.

(** Line boundaries of [str.splitlines()] below code point 256:
    LF, VT, FF, CR, FS, GS, RS and NEL; CR LF counts once. *)
Definition is_linebreak (c : ascii) : bool :=
  let n := nat_of_ascii c in
  ((10 <=? n) && (n <=? 13)) || ((28 <=? n) && (n <=? 30)) || (n =? 133).

Fixpoint splitlines (s : string) : list string :=
  match s with
  | EmptyString => []
  | String c s' =>
      if is_linebreak c then
        EmptyString ::
          match s' with
          | String d s'' =>
              if Ascii.eqb c CR && Ascii.eqb d LF
              then splitlines s'' else splitlines s'
          | EmptyString => []
          end
      else match splitlines s' with
           | l :: ls => String c l :: ls
           | [] => [String c EmptyString]
           end
  end.

(** [s[2:-5]] *)
Definition slice_2_m5 (s : string) : string :=
  String.substring 2 (String.length s - 5 - 2) s.

(** [s[n:]] *)
Fixpoint drop (n : nat) (s : string) : string :=
  match n, s with
  | S k, String _ s' => drop k s'
  | _, _ => s
  end.

(** *** The regular expression [Script \(.+\) loaded correctly]

    [.] is any character but the line feed and [+] is greedy: the
    longest run is tried first and given back one character at a time
    until the rest of the pattern matches. *)

Definition strip_prefix (p s : string) : option string :=
  if String.prefix p s then Some (drop (String.length p) s) else None.

(** [.* tail]: the text left after the match, when there is one. *)
Fixpoint dots_then (tail s : string) : option string :=
  match s with
  | EmptyString => strip_prefix tail s
  | String c s' =>
      if Ascii.eqb c LF then strip_prefix tail s
      else match dots_then tail s' with
           | Some r => Some r
           | None => strip_prefix tail s
           end
  end.

(** A match of the whole pattern at the start of [s]. *)
Definition script_loaded_at (s : string) : option string :=
  match strip_prefix "Script (" s with
  | Some (String c s') =>
      if Ascii.eqb c LF then None else dots_then ") loaded correctly" s'
  | _ => None
  end.

(** [regex.sub("", s)]: every match, leftmost first, is removed and
    the scan resumes behind it; [skip] counts the characters of a match
    that are still to be dropped. *)
Fixpoint script_loaded_sub (skip : nat) (s : string) : string :=
  match s with
  | EmptyString => EmptyString
  | String c s' =>
      match skip with
      | S k => script_loaded_sub k s'
      | O =>
          match script_loaded_at s with
          | Some rest =>
              script_loaded_sub (String.length s' - String.length rest) s'
          | None => String c (script_loaded_sub 0 s')
          end
      end
  end.

(** [s.rstrip()] *)
Fixpoint rstrip (s : string) : string :=
  match s with
  | EmptyString => EmptyString
  | String c s' =>
      match rstrip s' with
      | EmptyString => if is_space c then EmptyString else String c EmptyString
      | r => String c r
      end
  end.

(** [s.strip()] *)
Definition strip (s : string) : string := rstrip (lstrip s).

(** *** [bytes] *)

Abbreviation bytes := (list byte).

Definition byte_code (b : byte) : nat := nat_of_ascii (ascii_of_byte b).

(** [a == b] on [bytes] *)
Fixpoint bytes_eqb (a b : bytes) : bool :=
  match a, b with
  | [], [] => true
  | x :: a', y :: b' => Byte.eqb x y && bytes_eqb a' b'
  | _, _ => false
  end.

Definition hex_digit (n : nat) : ascii :=
  if n <? 10 then ascii_of_nat (48 + n) else ascii_of_nat (87 + n).

(** [repr(b)] of a [bytes] object, as [PyBytes_Repr] builds it. *)
Definition repr_byte (quote : ascii) (b : byte) : string :=
  let c := ascii_of_byte b in
  let n := nat_of_ascii c in
  if Ascii.eqb c quote || Ascii.eqb c "\"%char
  then String "\"%char (String c EmptyString)
  else if n =? 9 then "\t"
  else if n =? 10 then "\n"
  else if n =? 13 then "\r"
  else if (n <? 32) || (127 <=? n)
  then String "\"%char (String "x"%char
         (String (hex_digit (n / 16)) (String (hex_digit (n mod 16)) EmptyString)))
  else String c EmptyString.

Definition repr_quote (b : bytes) : ascii :=
  if existsb (fun x => byte_code x =? 39) b
     && negb (existsb (fun x => byte_code x =? 34) b)
  then "034"%char else "039"%char.

Definition repr_bytes (b : bytes) : string :=
  let q := repr_quote b in
  String "b"%char
    (String q (String.concat EmptyString (map (repr_byte q) b)
                 +:+ String q EmptyString)).

(** [bytes(s, "utf-8")] for code points below 256. *)
Definition utf8_char (c : ascii) : bytes :=
  let n := nat_of_ascii c in
  if n <? 128 then [byte_of_ascii c]
  else [byte_of_ascii (ascii_of_nat (192 + n / 64));
        byte_of_ascii (ascii_of_nat (128 + n mod 64))].

Definition utf8_encode (s : string) : bytes :=
  flat_map utf8_char (list_ascii_of_string s).

End Text.

Import Text.

(* ================================================================== *)
(** ** Exceptions, the world and the collaborators *)
(* ================================================================== *)

(** A raised Python exception: its class, [str(e)], and whether the class
    derives from [Exception] (a [KeyboardInterrupt] does not). *)
Record exn := Exn {
  exn_class : string;
  exn_str : string;
  exn_is_Exception : bool
}.

Definition AttributeError (msg : string) : exn := Exn "AttributeError" msg true.
Definition UnicodeDecodeError (msg : string) : exn := Exn "UnicodeDecodeError" msg true.
Definition FileNotFoundError (msg : string) : exn := Exn "FileNotFoundError" msg true.
Definition IndexError (msg : string) : exn := Exn "IndexError" msg true.

(** Reading a local variable that no executed branch has assigned. *)
Definition UnboundLocalError (var : string) : exn :=
  Exn "UnboundLocalError"
      ("cannot access local variable '" +:+ var
       +:+ "' where it is not associated with a value") true.

(** What one [readline()] on the REPL's standard output will do. *)
Inductive read_event :=
| Line (b : bytes)
| ReadError (e : exn).

(** [self.metacall_subprocess]: the pipes of the persistent REPL process.
    - [stdin_fault]: the error every write and flush raises (a broken
      pipe, a closed file), if any;
    - [stdin_buffer]: bytes written and not yet flushed;
    - [stdin_sent]: bytes flushed to the process, in order;
    - [stdout_script]: what the next calls of [readline()] will meet;
    - [stdout_eof]: behind the script the pipe is at end of file
      ([readline()] returns [b""]); otherwise the read blocks for ever. *)
Record repl := Repl {
  stdin_fault : option exn;
  stdin_buffer : bytes;
  stdin_sent : bytes;
  stdout_script : list read_event;
  stdout_eof : bool
}.

(** The kernel object and the machine around it.
    - [metacall_subprocess] is [None] when [_start_metacall] failed: the
      attribute was never set;
    - [files]: content of the files of the file system, by path;
    - [open_fault]: the error [open(path, "a")] raises, if any;
    - [iopub]: texts of the stream messages sent, oldest first. *)
Record world := World {
  metacall_subprocess : option repl;
  files : gmap string bytes;
  open_fault : string -> option exn;
  iopub : list string;
  execution_count : nat
}.

Inductive outcome (A : Type) :=
| Returns (a : A) (w : world)
| Raises (e : exn) (w : world)
| Hangs.
Arguments Returns {A} a w.
Arguments Raises {A} e w.
Arguments Hangs {A}.

Definition M (A : Type) : Type := world -> outcome A.

Definition ret {A} (a : A) : M A := fun w => Returns a w.
Definition raise {A} (e : exn) : M A := fun w => Raises e w.
Definition bind {A B} (m : M A) (k : A -> M B) : M B :=
  fun w =>
    match m w with
    | Returns a w' => k a w'
    | Raises e w' => Raises e w'
    | Hangs => Hangs
    end.

Notation "'let!' x ':=' m 'in' k" := (bind m (fun x => k))
  (at level 10, x name, m at level 100, k at level 200).
Notation "'do!' m 'in' k" := (bind m (fun _ => k))
  (at level 10, m at level 100, k at level 200).

(** [try: m  except: h] (a bare [except] catches everything). *)
Definition try_except {A} (m : M A) (h : exn -> M A) : M A :=
  fun w =>
    match m w with
    | Raises e w' => h e w'
    | o => o
    end.

(** [try: m  except Exception as e: h e] *)
Definition try_except_Exception {A} (m : M A) (h : exn -> M A) : M A :=
  fun w =>
    match m w with
    | Raises e w' => if exn_is_Exception e then h e w' else Raises e w'
    | o => o
    end.

(** The collaborators of the kernel that are not its own code: the
    [json] module and the programs it spawns.  A spawned program is an
    action on the world: it may change it, fail to start, or never end. *)
Record host := Host {
  json : Type;
  (** [json.loads] *)
  json_loads : string -> exn + json;
  (** [json.dumps] *)
  json_dumps : json -> string;
  (** [Popen(["metacall", temp.name]).communicate()] for a temporary file
      with the given content and suffix: standard output and error. *)
  run_metacall : bytes -> string -> M (bytes * bytes);
  (** [run(cmd, stdout=PIPE, stderr=STDOUT, shell=True)]: the return code
      and the combined output. *)
  run_shell : string -> M (Z * bytes)
}.

(* ================================================================== *)
(** ** Pipes, files and the response sink *)
(* ================================================================== *)

Definition set_subprocess (p : repl) (w : world) : world :=
  World (Some p) (files w) (open_fault w) (iopub w) (execution_count w).

Definition set_files (fs : gmap string bytes) (w : world) : world :=
  World (metacall_subprocess w) fs (open_fault w) (iopub w) (execution_count w).

Definition set_iopub (out : list string) (w : world) : world :=
  World (metacall_subprocess w) (files w) (open_fault w) out (execution_count w).

(** [self.metacall_subprocess] *)
Definition get_subprocess : M repl :=
  fun w =>
    match metacall_subprocess w with
    | Some p => Returns p w
    | None =>
        Raises (AttributeError
                  "'metacall_jupyter' object has no attribute 'metacall_subprocess'") w
    end.

(** [self.metacall_subprocess.stdin.write(b)] *)
Definition stdin_write (b : bytes) : M unit :=
  let! p := get_subprocess in
  match stdin_fault p with
  | Some e => raise e
  | None =>
      fun w =>
        Returns tt
          (set_subprocess
             (Repl None (stdin_buffer p ++ b) (stdin_sent p)
                   (stdout_script p) (stdout_eof p)) w)
  end.

(** [self.metacall_subprocess.stdin.flush()] *)
Definition stdin_flush : M unit :=
  let! p := get_subprocess in
  match stdin_fault p with
  | Some e => raise e
  | None =>
      fun w =>
        Returns tt
          (set_subprocess
             (Repl None [] (stdin_sent p ++ stdin_buffer p)
                   (stdout_script p) (stdout_eof p)) w)
  end.

(** [self.metacall_subprocess.stdout.readline()] *)
Definition stdout_readline : M bytes :=
  let! p := get_subprocess in
  match stdout_script p with
  | Line b :: rest =>
      fun w =>
        Returns b
          (set_subprocess
             (Repl (stdin_fault p) (stdin_buffer p) (stdin_sent p)
                   rest (stdout_eof p)) w)
  | ReadError e :: rest =>
      fun w =>
        Raises e
          (set_subprocess
             (Repl (stdin_fault p) (stdin_buffer p) (stdin_sent p)
                   rest (stdout_eof p)) w)
  | [] => if stdout_eof p then ret [] else fun _ => Hangs
  end.

(** [with open(file_name, "a", encoding="utf-8") as file: file.write(text)]
    as far as this embedding goes: [open] raises for the empty name and
    where [open_fault] says so, before any file is made, and otherwise
    the text is appended.  An [open] that blocks (a FIFO without a
    reader) and a write that fails once the file is open are not
    modelled; nothing below is stated about them. *)
Definition append_to_file (file_name text : string) : M unit :=
  fun w =>
    if String.eqb file_name EmptyString
    then Raises (FileNotFoundError "[Errno 2] No such file or directory: ''") w
    else
      match open_fault w file_name with
      | Some e => Raises e w
      | None =>
          Returns tt
            (set_files
               (<[file_name := default [] (files w !! file_name) ++ utf8_encode text]>
                  (files w)) w)
      end.

(** [self.send_response(self.iopub_socket, "stream",
                        {"name": "stdout", "text": text})] *)
Definition send_response (text : string) : M unit :=
  fun w => Returns tt (set_iopub (iopub w ++ [text]) w).

(** [b.decode("utf-8")] onto code points below 256: [Some] text for a
    sequence of one-byte characters and of two-byte characters up to
    U+00FF, as Python decodes them.  [None] stands for a sequence that is
    not UTF-8, which Python refuses, and also for one that encodes a code
    point from U+0100 on, which Python decodes and a [string] cannot
    hold: what is proved about decoded text carries the hypothesis that
    [utf8_decode] gives [Some]. *)
Fixpoint utf8_decode (b : bytes) : option string :=
  match b with
  | [] => Some EmptyString
  | x :: rest =>
      let n := byte_code x in
      if n <? 128 then String (ascii_of_byte x) <$> utf8_decode rest
      else if (n =? 194) || (n =? 195) then
        match rest with
        | y :: rest' =>
            let m := byte_code y in
            if (128 <=? m) && (m <? 192)
            then String (ascii_of_nat ((n - 192) * 64 + (m - 128)))
                   <$> utf8_decode rest'
            else None
        | [] => None
        end
      else None
  end.

(** [b.decode("utf-8")] in the kernel.  The text of the exception
    stands for Python's, which names the byte and its position; nothing
    below depends on it. *)
Definition bytes_decode (b : bytes) : M string :=
  match utf8_decode b with
  | Some s => ret s
  | None =>
      raise (UnicodeDecodeError "'utf-8' codec can't decode bytes")
  end.

(* ================================================================== *)
(** ** The helpers nested in [do_execute] *)
(* ================================================================== *)

Definition ESC : ascii := "027"%char.

(** Highlights the error message in red color. *)
Definition error_message (code : string) : string :=
  String ESC "[0;31m" +:+ code +:+ String ESC "[0m".

Definition newfile_magic (code : string) : M string :=
  let code := code +:+ nl in
  let magic_argument := hd EmptyString (split nl code) in
  let file_name := lstrip_chars "$newfile " magic_argument in
  match split_nl_once code with
  | _ :: file_input :: _ =>
      do! append_to_file file_name file_input in
      ret ("File " +:+ file_name +:+ " is saved.")
  | _ => raise (IndexError "list index out of range")
  end.

Definition metacall_repl (code : string) : M bytes :=
  let code := lstrip code +:+ nl in
  let arr := utf8_encode code in
  do! stdin_write arr in
  do! stdin_flush in
  let! output := stdout_readline in
  ret output.

Definition byte_to_string (code : bytes) : M string := bytes_decode code.

Inductive parse_state := Magics | Code.

(** The [for line in lines] loop of [split_magics]. *)
Fixpoint split_magics_loop (state : parse_state) (lines : list string)
    (magics code_lines : list string) : list string * list string :=
  match lines with
  | [] => (magics, code_lines)
  | line :: rest =>
      match state with
      | Magics =>
          if startswith line ">"
          then split_magics_loop Magics rest
                 (magics ++ [lstrip_chars ">" line]) code_lines
          else if String.eqb line EmptyString
          then split_magics_loop Magics rest magics code_lines
          else split_magics_loop Code rest magics (code_lines ++ [line])
      | Code => split_magics_loop Code rest magics (code_lines ++ [line])
      end
  end.

Definition split_magics (code : string) : list string * string :=
  let lines := split nl code in
  let (magics, code_lines) := split_magics_loop Magics lines [] [] in
  (magics, join nl code_lines).

Definition metacall_execute (h : host) (code extension : string) : M string :=
  let! out := run_metacall h (utf8_encode code) extension in
  let '(stdout_value, stderr_value) := out in
  let std_output := repr_bytes stdout_value in
  let std_error := repr_bytes stderr_value in
  let full_output := std_output +:+ nl +:+ std_error in
  let exact_output := slice_2_m5 full_output in
  let split_output := split "\n" exact_output in
  let logger_output :=
    fold_left (fun acc item => acc +:+ item +:+ nl) split_output EmptyString in
  ret logger_output.

Definition shell_execute (h : host) (code shcmd : string) : M string :=
  let cmd := lstrip (drop (String.length shcmd) code) in
  let! exact_output := run_shell h cmd in
  let '(returncode, stdout) := exact_output in
  if Z.eqb returncode 0
  then bytes_decode stdout
  else let! text := bytes_decode stdout in ret (error_message text).

(** The [while True] loop of [metacall_inspect].  Each turn consumes one
    event of the output script; behind the script [readline()] blocks, or
    returns [b""] for ever and the loop spins: with as many turns as the
    script has events and two more, running out of [turns] is [Hangs]. *)
Fixpoint inspect_loop (turns : nat) (inspect : string) : M string :=
  match turns with
  | O => fun _ => Hangs
  | S turns' =>
      let! line := stdout_readline in
      let! text := bytes_decode line in
      let inspect := inspect +:+ text in
      if bytes_eqb line [byte_of_ascii LF] then ret inspect
      else inspect_loop turns' inspect
  end.

Definition pending_reads (w : world) : nat :=
  match metacall_subprocess w with
  | Some p => length (stdout_script p)
  | None => 0
  end.

Definition metacall_inspect (h : host) : M (json h) :=
  let code := "%inspect" in
  let code := lstrip code +:+ nl in
  let code_bytes := utf8_encode code in
  do! stdin_write code_bytes in
  do! stdin_flush in
  let! inspect := (fun w => inspect_loop (2 + pending_reads w) EmptyString w) in
  match json_loads h inspect with
  | inr j => ret j
  | inl e => raise e
  end.

(** The body of the [try] block of [metacall_load]. *)
Definition load_exchange (code : string) : M string :=
  let code := lstrip code +:+ nl in
  let code_bytes := utf8_encode code in
  do! stdin_write code_bytes in
  do! stdin_flush in
  let! _line := stdout_readline in
  ret "The file has been successfully loaded".

Definition metacall_load (code : string) : M string :=
  try_except (load_exchange code)
    (fun _ => ret "The file was not loaded onto the Kernel").

(** [regex.search(code)]: is there a match anywhere? *)
Fixpoint script_loaded_search (s : string) : bool :=
  match script_loaded_at s with
  | Some _ => true
  | None =>
      match s with
      | EmptyString => false
      | String _ s' => script_loaded_search s'
      end
  end.

(** Delete the Script loading message from the execution. *)
Definition delete_line_from_string (code : string) : string :=
  if script_loaded_search code
  then script_loaded_sub 0 code
  else code.

(** [os.linesep], on a POSIX system. *)
Definition linesep : string := nl.

(** Trim the empty lines from the logger output for better formatting. *)
Definition trim_empty_lines (text : string) : string :=
  join linesep
    (List.filter (fun s => negb (String.eqb s EmptyString)) (splitlines text)).

Definition extensions : gmap string string :=
  <["python" := ".py"]> (<["javascript" := ".js"]> ∅).

Definition shcmd : string := "!".
Definition shutd : string := "$shutdown".
Definition newfile : string := "$newfile".
Definition inspect_command : string := "%inspect".
Definition load_command : string := "%load".
Definition help_command : string := "$help".

Definition help_text : string :=
  "1. ! : Run a Shell Command on the MetaCall Jupyter Kernel" +:+ nl
  +:+ "2. shutdown : Shutdown the MetaCall Jupyter Kernel" +:+ nl
  +:+ "3. $inspect : Inspects the MetaCall to check all loaded functions" +:+ nl
  +:+ "4. %load: Loads a file onto the MetaCall which can be evaluated" +:+ nl
  +:+ "5. $newfile: Creates a new file and appends the code mentioned below" +:+ nl
  +:+ "6. %repl <tag>: Switch from different REPL (available tags: node, py)" +:+ nl
  +:+ "7. >lang: Execute scripts using the MetaCall exec by saving them in a "
  +:+ "temporary file (available languages: python, javascript)" +:+ nl
  +:+ "8. $help: Check all the commands and tags you can use while accessing "
  +:+ "the MetaCall Kernel" +:+ nl
  +:+ "9. %available: Checks all the available REPLs on the Kernel".

(** The branch of the [if]/[elif] chain of [do_execute] that is taken. *)
Inductive command_kind :=
| Help | ShellCommand | Inspect | Load | NewFile | Shutdown
| DirectiveExecute | ReplForward.

Definition route (magics : list string) (code : string) : command_kind :=
  if startswith code help_command then Help
  else if startswith code shcmd then ShellCommand
  else if startswith code inspect_command then Inspect
  else if startswith code load_command then Load
  else if startswith code newfile then NewFile
  else if startswith code shutd then Shutdown
  else match magics with
       | _ :: _ => DirectiveExecute
       | [] => ReplForward
       end.

(** [magic_lang] of the [elif magics] branch. *)
Definition magic_lang (magics : list string) : string :=
  lower (join EmptyString magics).

Definition unsupported_message (lang : string) : string :=
  "We don't suppport " +:+ lang +:+ " language, yet." +:+ nl
  +:+ "Please try another language or add support for " +:+ lang
  +:+ " language." +:+ nl.

(* ================================================================== *)
(** ** [do_shutdown] and [do_execute] *)
(* ================================================================== *)

(** The dictionary [do_shutdown] returns: its ["restart"] entry. *)
Record shutdown_reply := ShutdownReply { restart : bool }.

Definition do_shutdown (_restart : bool) : M shutdown_reply :=
  let logger_output := "Kernel Shutdown!" in
  do! send_response logger_output in
  ret (ShutdownReply false).

(** The body of the [try] block once the magics are split off.  The
    result is the binding of the local variable [logger_output] when the
    block ends: the [$shutdown] branch never assigns it. *)
Definition handle (h : host) (magics : list string) (code : string)
  : M (option string) :=
  match route magics code with
  | Help => ret (Some help_text)
  | ShellCommand =>
      let! out := shell_execute h code shcmd in ret (Some out)
  | Inspect =>
      let! symbols := metacall_inspect h in ret (Some (json_dumps h symbols))
  | Load =>
      let! out := metacall_load code in ret (Some out)
  | NewFile =>
      let! out := newfile_magic code in ret (Some out)
  | Shutdown =>
      do! do_shutdown false in ret None
  | DirectiveExecute =>
      let lang := magic_lang magics in
      match extensions !! lang with
      | Some extension =>
          let! out := metacall_execute h code extension in ret (Some out)
      | None => ret (Some (unsupported_message lang))
      end
  | ReplForward =>
      let! output := metacall_repl code in
      let! out := byte_to_string output in ret (Some out)
  end.

(** The text of the stream message built from [logger_output]. *)
Definition stream_text (logger_output : string) : string :=
  let logger_output :=
    if contains "error" logger_output
    then error_message logger_output else logger_output in
  trim_empty_lines (delete_line_from_string logger_output).

(** The dictionary [do_execute] returns. *)
Record execute_reply := ExecuteReply {
  status : string;
  reply_execution_count : nat
}.

Definition do_execute (h : host) (code : string) (silent : bool)
  : M execute_reply :=
  do! (if silent then ret tt
       else
         let! logger_output :=
           try_except_Exception
             (let '(magics, code) := split_magics code in handle h magics code)
             (fun e => ret (Some (error_message (exn_str e)))) in
         match logger_output with
         | None => raise (UnboundLocalError "logger_output")
         | Some logger_output => send_response (stream_text logger_output)
         end) in
  fun w => Returns (ExecuteReply "ok" (execution_count w)) w.

(** The world an outcome leaves behind, when the call comes back. *)
Definition final_world {A} (o : outcome A) : option world :=
  match o with
  | Returns _ w => Some w
  | Raises _ w => Some w
  | Hangs => None
  end.

(** The pipes once [request] is written and flushed and the reads have
    come to [rest]. *)
Definition after_exchange (p : repl) (request : bytes)
    (rest : list read_event) : repl :=
  Repl None [] (stdin_sent p ++ stdin_buffer p ++ request) rest (stdout_eof p).

(** Does the first line that is not empty begin with the marker [>]? *)
Fixpoint leading_directive (lines : list string) : bool :=
  match lines with
  | [] => false
  | line :: rest =>
      if startswith line ">" then true
      else if String.eqb line EmptyString then leading_directive rest
      else false
  end.

(** A line of the directive phase: a directive or an empty line. *)
Definition directive_phase_line (line : string) : bool :=
  startswith line ">" || String.eqb line EmptyString.

(** The lines behind the directive phase: none, or a first line that is
    neither a directive nor empty. *)
Definition payload_start (rest : list string) : bool :=
  match rest with
  | [] => true
  | line :: _ => negb (directive_phase_line line)
  end.

(** [n] line feeds. *)
Fixpoint line_feeds (n : nat) : string :=
  match n with
  | O => EmptyString
  | S k => String LF (line_feeds k)
  end.

(** [n] marker characters. *)
Fixpoint markers (n : nat) : string :=
  match n with
  | O => EmptyString
  | S k => String ">"%char (markers k)
  end.

(** [splitlines] told in two parts: the lines that a line boundary ends,
    and the text behind the last boundary. *)
Fixpoint lines_open (s : string) : list string * string :=
  match s with
  | EmptyString => ([], EmptyString)
  | String c s' =>
      if is_linebreak c then
        let '(ls, p) :=
          match s' with
          | String d s'' =>
              if Ascii.eqb c CR && Ascii.eqb d LF
              then lines_open s'' else lines_open s'
          | EmptyString => ([], EmptyString)
          end in
        (EmptyString :: ls, p)
      else
        let '(ls, p) := lines_open s' in
        match ls with
        | l :: ls' => (String c l :: ls', p)
        | [] => ([], String c p)
        end
  end.

(** A text wrapped in the escape codes of [error_message]. *)
Definition error_styled (text : string) : Prop :=
  exists body, text = error_message body.

(* ================================================================== *)
(** ** The specification's wording, for comparison *)
(* ================================================================== *)

(** Section 4.2, rule 7: the target language is the first directive's
    tag, case-insensitized. *)
Definition spec_target_language (magics : list string) : string :=
  lower (hd EmptyString magics).

(** Section 4.5: strip the load notice, drop the empty lines, and only
    then colour the text if it holds ["error"]. *)
Definition spec_normalize (text : string) : string :=
  let text := delete_line_from_string text in
  let text := trim_empty_lines text in
  if contains "error" text then error_message text else text.

(** Section 8: the payload of a directive-free input is "the trimmed
    original". *)
Definition spec_trimmed (code : string) : string := strip code.

(** Section 4.1, "blank lines": a line with nothing in it but white
    space. *)
Definition spec_blank_line (line : string) : bool :=
  String.eqb (strip line) EmptyString.

(* ================================================================== *)
(** ** Sample collaborators and worlds *)
(* ================================================================== *)

(** A host whose one-shot process prints [out] and [err], whose shell
    prints nothing, and whose [json] keeps a document as its text without
    the white space behind it. *)
Definition sample_host (out err : bytes) : host :=
  Host string (fun s => inr (rstrip s)) (fun j => j)
       (fun _ _ => ret (out, err))
       (fun _ => ret (0%Z, [])).

Definition bytes_of (s : string) : bytes := list_byte_of_string s.

(** A live REPL process that will answer with the given lines. *)
Definition sample_repl (lines : list string) : repl :=
  Repl None [] [] (map (fun l => Line (bytes_of l)) lines) false.

Definition sample_world (lines : list string) (fs : gmap string bytes) : world :=
  World (Some (sample_repl lines)) fs (fun _ => None) [] 0.

(** The double quote, for JSON samples. *)
Definition dq : string := String "034"%char EmptyString.

(** Two lines of a JSON object, as the REPL would print them. *)
Definition inspect_line_1 : string :=
  "{" +:+ dq +:+ "py" +:+ dq +:+ ": []," +:+ nl.
Definition inspect_line_2 : string :=
  dq +:+ "node" +:+ dq +:+ ": []}" +:+ nl.

(* ================================================================== *)
(** ** Start-up of the REPL process, and further vocabulary *)
(* ================================================================== *)

(** [_start_metacall], with [popen] standing for
    [subprocess.Popen(["metacall", "repl.js"], stdin=PIPE, stdout=PIPE,
    stderr=PIPE)]: the attribute is set once the process is there, one
    line of its output is read and dropped, and an [Exception] on the
    way is logged and goes no further. *)
Definition _start_metacall (popen : M repl) : M unit :=
  try_except_Exception
    (let! p := popen in
     do! (fun w => Returns tt (set_subprocess p w)) in
     let! _greeting := stdout_readline in
     ret tt)
    (fun _ => ret tt).

(** The text between the quotes of [repr(b)]. *)
Definition escaped (b : bytes) : string :=
  String.concat EmptyString (map (repr_byte (repr_quote b)) b).

(** [s[:n]] *)
Fixpoint str_take (n : nat) (s : string) : string :=
  match n, s with
  | S k, String c s' => String c (str_take k s')
  | _, _ => EmptyString
  end.

(** A line as [splitlines] gives them and [trim_empty_lines] keeps
    them: not empty, and without a line boundary. *)
Definition kept_line (l : string) : bool :=
  negb (String.eqb l EmptyString)
  && forallb (fun c => negb (is_linebreak c)) (list_ascii_of_string l).

(** A reply of the REPL that leaves the loop of [metacall_inspect]
    running: it decodes and is not the lone line feed. *)
Definition keeps_inspecting (ev : read_event) : bool :=
  match ev with
  | Line b =>
      match utf8_decode b with
      | Some _ => negb (bytes_eqb b [byte_of_ascii LF])
      | None => false
      end
  | ReadError _ => false
  end.

(** A byte that [repr] leaves as it is, or the line feed: printable
    ASCII other than the single quote and the backslash. *)
Definition plain_or_lf (b : byte) : bool :=
  let n := byte_code b in
  (n =? 10)
  || ((32 <=? n) && (n <? 127) && negb (n =? 39) && negb (n =? 92)).

(** The notice the REPL prints when it has loaded the script [name]. *)
Definition load_notice (name : string) : string :=
  "Script (" +:+ name +:+ ") loaded correctly".

(** An exception class outside [Exception]. *)
Definition KeyboardInterrupt : exn := Exn "KeyboardInterrupt" EmptyString false.

(* ================================================================== *)
(** ** Facts about the text primitives *)
(* ================================================================== *)

#[local] Arguments String.append : simpl nomatch.

Section TextFacts.

Lemma str_append_assoc (a b c : string) : (a +:+ b) +:+ c = a +:+ (b +:+ c).
Proof. induction a as [|x a IH]; simpl; [reflexivity | now rewrite IH]. Qed.

Lemma str_append_empty_r (a : string) : a +:+ EmptyString = a.
Proof. induction a as [|x a IH]; simpl; [reflexivity | now rewrite IH]. Qed.

Lemma str_prefix_cons (a b : ascii) (p s : string) :
  String.prefix (String a p) (String b s) = Ascii.eqb a b && String.prefix p s.
Proof.
  cbn [String.prefix]. destruct (ascii_dec a b) as [-> | Hne].
  - now rewrite Ascii.eqb_refl.
  - apply Ascii.eqb_neq in Hne. now rewrite Hne.
Qed.

Lemma str_prefix_nil_l (s : string) : String.prefix EmptyString s = true.
Proof. now destruct s. Qed.

Lemma str_prefix_nil_r (a : ascii) (p : string) :
  String.prefix (String a p) EmptyString = false.
Proof. reflexivity. Qed.

Lemma prefix_nl_cons (c : ascii) (s : string) :
  String.prefix nl (String c s) = Ascii.eqb c LF.
Proof.
  unfold nl. rewrite str_prefix_cons, str_prefix_nil_l, andb_true_r.
  apply Ascii.eqb_sym.
Qed.

Lemma split_nl_cons (c : ascii) (s : string) :
  split nl (String c s) =
  if Ascii.eqb c LF then EmptyString :: split nl s
  else match split nl s with
       | l :: ls => String c l :: ls
       | [] => [String c EmptyString]
       end.
Proof.
  unfold split. cbn [split_from]. rewrite prefix_nl_cons.
  destruct (Ascii.eqb c LF); reflexivity.
Qed.

Lemma split_nl_not_nil (s : string) : split nl s <> [].
Proof.
  induction s as [|c s IH]; [discriminate |].
  rewrite split_nl_cons. destruct (Ascii.eqb c LF); [discriminate |].
  destruct (split nl s); discriminate.
Qed.

Lemma join_cons_cons (sep x y : string) (ls : list string) :
  join sep (x :: y :: ls) = x +:+ sep +:+ join sep (y :: ls).
Proof. reflexivity. Qed.

Lemma join_String_head (sep : string) (c : ascii) (l : string) (ls : list string) :
  join sep (String c l :: ls) = String c (join sep (l :: ls)).
Proof. destruct ls; reflexivity. Qed.

Lemma join_split_nl (s : string) : join nl (split nl s) = s.
Proof.
  induction s as [|c s IH]; [reflexivity |].
  rewrite split_nl_cons.
  destruct (Ascii.eqb c LF) eqn:Hc.
  - apply Ascii.eqb_eq in Hc. subst c.
    destruct (split nl s) as [|l ls] eqn:Hs; [now apply split_nl_not_nil in Hs |].
    rewrite join_cons_cons, IH. reflexivity.
  - destruct (split nl s) as [|l ls] eqn:Hs; [now apply split_nl_not_nil in Hs |].
    rewrite join_String_head, IH. reflexivity.
Qed.

End TextFacts.

(* ================================================================== *)
(** ** The magic parser *)
(* ================================================================== *)

Section MagicParser.

Lemma split_magics_loop_code (lines magics code_lines : list string) :
  split_magics_loop Code lines magics code_lines = (magics, code_lines ++ lines).
Proof.
  revert code_lines. induction lines as [|line lines IH]; intros code_lines.
  - now rewrite app_nil_r.
  - cbn [split_magics_loop]. rewrite IH, <- app_assoc. reflexivity.
Qed.

Lemma split_magics_loop_phase (pre rest magics code_lines : list string) :
  forallb directive_phase_line pre = true ->
  payload_start rest = true ->
  split_magics_loop Magics (pre ++ rest) magics code_lines =
  (magics ++ map (lstrip_chars ">") (List.filter (fun l => startswith l ">") pre),
   code_lines ++ rest).
Proof.
  intros Hpre Hrest. revert magics. induction pre as [|line pre IH]; intros magics.
  - cbn [app map List.filter]. rewrite app_nil_r.
    destruct rest as [|line rest]; [now rewrite app_nil_r |].
    cbn [payload_start] in Hrest. apply negb_true_iff in Hrest.
    unfold directive_phase_line in Hrest. apply orb_false_iff in Hrest as [H1 H2].
    cbn [split_magics_loop]. rewrite H1, H2, split_magics_loop_code.
    rewrite <- app_assoc. reflexivity.
  - cbn [forallb] in Hpre. apply andb_true_iff in Hpre as [Hline Hpre].
    cbn [app split_magics_loop List.filter].
    destruct (startswith line ">") eqn:Hdir.
    + rewrite (IH Hpre). cbn [map]. now rewrite <- app_assoc.
    + unfold directive_phase_line in Hline. rewrite Hdir in Hline.
      cbn [orb] in Hline. rewrite Hline. apply (IH Hpre).
Qed.

Lemma lstrip_markers (n : nat) (tag : string) :
  startswith tag ">" = false ->
  lstrip_chars ">" (markers n +:+ tag) = tag.
Proof.
  intros Htag. induction n as [|n IH]; cbn [markers].
  - change (EmptyString +:+ tag) with tag.
    destruct tag as [|c tag]; [reflexivity |].
    unfold startswith in Htag. rewrite str_prefix_cons, str_prefix_nil_l, andb_true_r in Htag.
    cbn [lstrip_chars]. unfold ascii_in. cbn [list_ascii_of_string existsb].
    rewrite Ascii.eqb_sym, Htag. reflexivity.
  - change (String ">" (markers n) +:+ tag) with (String ">" (markers n +:+ tag)).
    cbn [lstrip_chars]. unfold ascii_in. cbn [list_ascii_of_string existsb].
    rewrite Ascii.eqb_refl. cbn [orb]. exact IH.
Qed.

Lemma lstrip_chars_no_marker (s : string) :
  startswith (lstrip_chars ">" s) ">" = false.
Proof.
  induction s as [|c s IH]; [reflexivity |].
  cbn [lstrip_chars]. unfold ascii_in. cbn [list_ascii_of_string existsb].
  rewrite orb_false_r. destruct (Ascii.eqb c ">") eqn:Hc; [exact IH |].
  unfold startswith. rewrite str_prefix_cons, Ascii.eqb_sym, Hc. reflexivity.
Qed.

(** The payload of an input without a leading directive: the empty
    lines in front are gone, the rest is the input as it was. *)
Lemma join_skip_empty_lines (code : string) (magics : list string) :
  leading_directive (split nl code) = false ->
  split_magics_loop Magics (split nl code) magics [] =
  (magics, match lstrip_chars nl code with
           | EmptyString => []
           | rest => split nl rest
           end).
Proof.
  induction code as [|c code IH]; intros Hlead; [reflexivity |].
  pose proof (split_nl_cons c code) as Hsplit.
  cbn [lstrip_chars]. unfold ascii_in, nl. cbn [list_ascii_of_string existsb].
  rewrite orb_false_r. fold nl.
  destruct (Ascii.eqb c LF) eqn:Hc.
  - rewrite Hsplit in Hlead |- *.
    cbn [leading_directive split_magics_loop] in Hlead |- *.
    change (startswith EmptyString ">") with false in Hlead |- *.
    cbn [String.eqb] in Hlead |- *. apply IH, Hlead.
  - destruct (split nl code) as [|l ls] eqn:Hs; [now apply split_nl_not_nil in Hs |].
    rewrite Hsplit in Hlead |- *.
    cbn [leading_directive split_magics_loop] in Hlead |- *.
    destruct (startswith (String c l) ">"); [discriminate |].
    cbn [String.eqb]. now rewrite split_magics_loop_code.
Qed.

Lemma split_magics_skips_line_feeds (code : string) :
  leading_directive (split nl code) = false ->
  split_magics code = ([], lstrip_chars nl code).
Proof.
  intros Hlead. unfold split_magics.
  rewrite (join_skip_empty_lines code [] Hlead).
  destruct (lstrip_chars nl code) as [|c rest]; [reflexivity |].
  now rewrite join_split_nl.
Qed.

Lemma lstrip_line_feeds (code : string) :
  exists n, code = line_feeds n +:+ lstrip_chars nl code.
Proof.
  induction code as [|c code [n IH]]; [now exists 0 |].
  cbn [lstrip_chars]. unfold ascii_in, nl. cbn [list_ascii_of_string existsb].
  rewrite orb_false_r. destruct (Ascii.eqb c LF) eqn:Hc.
  - apply Ascii.eqb_eq in Hc. subst c. exists (S n).
    cbn [line_feeds].
    change (String LF (line_feeds n) +:+ lstrip_chars (String LF EmptyString) code)
      with (String LF (line_feeds n +:+ lstrip_chars nl code)).
    now rewrite <- IH.
  - now exists 0.
Qed.

Lemma lstrip_no_line_feed (code : string) :
  startswith (lstrip_chars nl code) nl = false.
Proof.
  induction code as [|c code IH]; [reflexivity |].
  cbn [lstrip_chars]. unfold ascii_in, nl. cbn [list_ascii_of_string existsb].
  rewrite orb_false_r. destruct (Ascii.eqb c LF) eqn:Hc; [exact IH |].
  unfold startswith. fold nl. now rewrite prefix_nl_cons.
Qed.

(** Parsing the payload of a directive-free input again changes nothing. *)
Lemma split_magics_idempotent (code : string) :
  leading_directive (split nl code) = false ->
  split_magics (snd (split_magics code)) = split_magics code.
Proof.
  intros Hlead. rewrite (split_magics_skips_line_feeds code Hlead). cbn [snd].
  assert (Hidem : lstrip_chars nl (lstrip_chars nl code) = lstrip_chars nl code).
  { clear Hlead. induction code as [|c code IH]; [reflexivity |].
    cbn [lstrip_chars]. destruct (ascii_in c nl) eqn:Hc; [exact IH |].
    cbn [lstrip_chars]. now rewrite Hc. }
  rewrite split_magics_skips_line_feeds; [now rewrite Hidem |].
  clear Hidem. induction code as [|c code IH]; [reflexivity |].
  pose proof (split_nl_cons c code) as Hsplit.
  cbn [lstrip_chars]. unfold ascii_in, nl. cbn [list_ascii_of_string existsb].
  rewrite orb_false_r. fold nl. destruct (Ascii.eqb c LF) eqn:Hc.
  - apply IH. rewrite Hsplit in Hlead. exact Hlead.
  - exact Hlead.
Qed.

(** C6, as amended.  For an input whose first non-empty line does not
    begin with the directive marker, the directive list is empty and the
    payload is the input without the line feeds in front of it: the input
    is some line feeds followed by the payload, which begins with none.
    Nothing else is trimmed, and parsing the payload again gives the
    same result. *)
Theorem split_magics_directive_free (code : string) :
  leading_directive (split nl code) = false ->
  split_magics code = ([], lstrip_chars nl code)
  /\ (exists n, code = line_feeds n +:+ snd (split_magics code))
  /\ startswith (snd (split_magics code)) nl = false
  /\ split_magics (snd (split_magics code)) = split_magics code.
Proof.
  intros Hlead.
  pose proof (split_magics_skips_line_feeds code Hlead) as Hres.
  split; [exact Hres |]. split.
  { rewrite Hres. cbn [snd]. apply lstrip_line_feeds. }
  split.
  { rewrite Hres. cbn [snd]. apply lstrip_no_line_feed. }
  now apply split_magics_idempotent.
Qed.

Lemma split_magics_directive_free_witness :
  leading_directive (split nl (nl +:+ "  x  " +:+ nl)) = false /\
  split_magics (nl +:+ "  x  " +:+ nl) = ([], "  x  " +:+ nl).
Proof.
  split; [reflexivity |].
  exact (proj1 (split_magics_directive_free (nl +:+ "  x  " +:+ nl) eq_refl)).
Defined.

(** C6, as stated, fails: the payload of [" x" + LF] keeps the blank in
    front and the line feed behind, which trimming removes. *)
Lemma split_magics_payload_not_trimmed :
  leading_directive (split nl (" x" +:+ nl)) = false /\
  fst (split_magics (" x" +:+ nl)) = [] /\
  snd (split_magics (" x" +:+ nl)) = " x" +:+ nl /\
  spec_trimmed (" x" +:+ nl) = "x" /\
  snd (split_magics (" x" +:+ nl)) <> spec_trimmed (" x" +:+ nl).
Proof. repeat split; try reflexivity. vm_compute. discriminate. Qed.

(** C10, as amended.  Split the lines of an input into the directive
    phase [pre] (directives and empty lines, that is lines of length
    zero) and what follows [rest] (nothing, or lines whose first is
    neither): the directive list holds the
    directives of [pre], each without all of its leading marker
    characters, and the payload is [rest] alone, so the empty lines of
    [pre] are dropped whether or not [pre] holds a directive.  A line
    of [n] markers before a tag yields that tag, so [>>python] and
    [>python] yield the same. *)
Theorem split_magics_directive_run (code : string) (pre rest : list string) :
  split nl code = pre ++ rest ->
  forallb directive_phase_line pre = true ->
  payload_start rest = true ->
  split_magics code =
    (map (lstrip_chars ">") (List.filter (fun l => startswith l ">") pre),
     join nl rest)
  /\ Forall (fun tag => startswith tag ">" = false) (fst (split_magics code))
  /\ (forall n tag, startswith tag ">" = false ->
        lstrip_chars ">" (markers n +:+ tag) = tag)
  /\ split_magics ">>python" = (["python"], EmptyString)
  /\ split_magics ">python" = (["python"], EmptyString).
Proof.
  intros Hsplit Hpre Hrest.
  assert (Hres : split_magics code =
    (map (lstrip_chars ">") (List.filter (fun l => startswith l ">") pre),
     join nl rest)).
  { unfold split_magics. rewrite Hsplit.
    now rewrite (split_magics_loop_phase pre rest [] [] Hpre Hrest). }
  split; [exact Hres |]. split.
  { rewrite Hres. cbn [fst]. apply List.Forall_forall. intros tag Hin.
    apply in_map_iff in Hin as (line & <- & _). apply lstrip_chars_no_marker. }
  split; [intros n tag; apply lstrip_markers |].
  split; reflexivity.
Qed.

Lemma split_magics_directive_run_witness :
  split_magics (nl +:+ ">>python" +:+ nl +:+ nl +:+ "x = 1" +:+ nl +:+ ">y")
  = (["python"], "x = 1" +:+ nl +:+ ">y").
Proof.
  apply (split_magics_directive_run
           (nl +:+ ">>python" +:+ nl +:+ nl +:+ "x = 1" +:+ nl +:+ ">y")
           [EmptyString; ">>python"; EmptyString] ["x = 1"; ">y"]);
    reflexivity.
Defined.

(** C10, as stated, fails on a blank line that is not empty.  A line
    holding one space, or the carriage return of a CR LF line ending,
    is blank; the parser tests [not line], takes it for the first line
    of the payload, keeps it, and reads no directive behind it. *)
Lemma blank_line_counterexample :
  let code := " " +:+ nl +:+ ">python" +:+ nl +:+ "x" in
  let crlf := String CR nl +:+ ">python" +:+ nl +:+ "x" in
  spec_blank_line " " = true
  /\ spec_blank_line (String CR EmptyString) = true
  /\ split nl code = [" "; ">python"; "x"]
  /\ split_magics code = ([], code)
  /\ split nl crlf = [String CR EmptyString; ">python"; "x"]
  /\ split_magics crlf = ([], crlf)
  /\ split_magics (nl +:+ ">python" +:+ nl +:+ "x") = (["python"], "x").
Proof. cbv zeta. repeat split; reflexivity. Qed.

End MagicParser.

(* ================================================================== *)
(** ** The output clean-up *)
(* ================================================================== *)

Section Normalizer.

(** The escape sequence that closes [error_message]. *)
Let reset : string := String ESC "[0m".
(** The escape sequence that opens it. *)
Let red : string := String ESC "[0;31m".

Lemma error_message_eq (text : string) :
  error_message text = red +:+ text +:+ reset.
Proof. reflexivity. Qed.

Lemma str_length_append (a b : string) :
  String.length (a +:+ b) = String.length a + String.length b.
Proof. induction a as [|x a IH]; simpl; [reflexivity | now rewrite IH]. Qed.

Lemma str_prefix_length (p s : string) :
  String.prefix p s = true -> String.length p <= String.length s.
Proof.
  revert s. induction p as [|a p IH]; intros s H; [simpl; lia |].
  destruct s as [|b s]; [discriminate |].
  rewrite str_prefix_cons in H. apply andb_true_iff in H as [_ H].
  apply IH in H. simpl. lia.
Qed.

Lemma str_prefix_app_reset (p s : string) :
  ascii_in ESC p = false ->
  String.prefix p (s +:+ reset) = String.prefix p s.
Proof.
  revert s. induction p as [|a p IH]; intros s Hp.
  - now rewrite !str_prefix_nil_l.
  - unfold ascii_in in Hp. cbn [list_ascii_of_string existsb] in Hp.
    apply orb_false_iff in Hp as [Ha Hp].
    destruct s as [|b s].
    + change (EmptyString +:+ reset) with reset. unfold reset.
      rewrite str_prefix_cons, Ascii.eqb_sym, Ha. reflexivity.
    + change (String b s +:+ reset) with (String b (s +:+ reset)).
      rewrite !str_prefix_cons, (IH s Hp). reflexivity.
Qed.

Lemma drop_app (n : nat) (s t : string) :
  n <= String.length s -> drop n (s +:+ t) = drop n s +:+ t.
Proof.
  revert s. induction n as [|n IH]; intros s Hn.
  - now destruct s.
  - destruct s as [|c s]; [simpl in Hn; lia |].
    simpl in Hn. cbn [drop]. change (String c s +:+ t) with (String c (s +:+ t)).
    cbn [drop]. apply IH. lia.
Qed.

Lemma strip_prefix_app_reset (p s : string) :
  ascii_in ESC p = false ->
  strip_prefix p (s +:+ reset) = (fun r => r +:+ reset) <$> strip_prefix p s.
Proof.
  intros Hp. unfold strip_prefix. rewrite (str_prefix_app_reset p s Hp).
  destruct (String.prefix p s) eqn:Hpre; [| reflexivity].
  cbn. f_equal. apply drop_app, str_prefix_length, Hpre.
Qed.

Lemma dots_then_app_reset (s : string) :
  dots_then ") loaded correctly" (s +:+ reset) =
  (fun r => r +:+ reset) <$> dots_then ") loaded correctly" s.
Proof.
  induction s as [|c s IH]; [reflexivity |].
  change (String c s +:+ reset) with (String c (s +:+ reset)).
  cbn [dots_then]. rewrite IH.
  change (String c (s +:+ reset)) with (String c s +:+ reset).
  destruct (Ascii.eqb c LF).
  - exact (strip_prefix_app_reset ") loaded correctly" (String c s) eq_refl).
  - destruct (dots_then ") loaded correctly" s); [reflexivity |].
    exact (strip_prefix_app_reset ") loaded correctly" (String c s) eq_refl).
Qed.

Lemma script_loaded_at_app_reset (s : string) :
  script_loaded_at (s +:+ reset) = (fun r => r +:+ reset) <$> script_loaded_at s.
Proof.
  unfold script_loaded_at.
  rewrite (strip_prefix_app_reset "Script (" s eq_refl).
  destruct (strip_prefix "Script (" s) as [[|c r] |]; try reflexivity.
  cbn. change (String c r +:+ reset) with (String c (r +:+ reset)).
  destruct (Ascii.eqb c LF); [reflexivity |]. apply dots_then_app_reset.
Qed.

Lemma script_loaded_sub_app_reset (t : string) (k : nat) :
  k <= String.length t ->
  script_loaded_sub k (t +:+ reset) = script_loaded_sub k t +:+ reset.
Proof.
  revert k. induction t as [|c t IH]; intros k Hk.
  - simpl in Hk. assert (k = 0) as -> by lia. reflexivity.
  - change (String c t +:+ reset) with (String c (t +:+ reset)).
    cbn [script_loaded_sub]. destruct k as [|k].
    + change (String c (t +:+ reset)) with (String c t +:+ reset).
      rewrite script_loaded_at_app_reset.
      destruct (script_loaded_at (String c t)) as [rest |]; cbn.
      * rewrite !str_length_append.
        replace (String.length t + String.length reset
                 - (String.length rest + String.length reset))
          with (String.length t - String.length rest) by lia.
        apply IH. lia.
      * now rewrite (IH 0) by lia.
    + apply IH. simpl in Hk. lia.
Qed.

Lemma script_loaded_at_other (c : ascii) (s : string) :
  Ascii.eqb "S" c = false -> script_loaded_at (String c s) = None.
Proof.
  intros Hc. unfold script_loaded_at, strip_prefix.
  now rewrite str_prefix_cons, Hc.
Qed.

Lemma script_loaded_sub_red (s : string) :
  script_loaded_sub 0 (red +:+ s) = red +:+ script_loaded_sub 0 s.
Proof.
  unfold red.
  repeat (match goal with
          | |- context [String ?c ?r +:+ ?x] =>
              change (String c r +:+ x) with (String c (r +:+ x))
          end).
  change (EmptyString +:+ s) with s.
  repeat (cbn [script_loaded_sub]; rewrite script_loaded_at_other by reflexivity;
          f_equal).
Qed.

(** Stripping the load notice leaves the colouring in place. *)
Lemma delete_line_keeps_styling (text : string) :
  exists body, delete_line_from_string (error_message text) = error_message body.
Proof.
  unfold delete_line_from_string.
  destruct (script_loaded_search (error_message text)); [| now exists text].
  exists (script_loaded_sub 0 text).
  rewrite !error_message_eq, script_loaded_sub_red.
  now rewrite script_loaded_sub_app_reset by lia.
Qed.

Lemma splitlines_app_reset_bounded (n : nat) (s : string) :
  String.length s <= n ->
  splitlines (s +:+ reset) = fst (lines_open s) ++ [snd (lines_open s) +:+ reset].
Proof.
  revert s. induction n as [|n IH]; intros s Hn.
  - destruct s; [reflexivity | simpl in Hn; lia].
  - destruct s as [|c s]; [reflexivity |].
    simpl in Hn. change (String c s +:+ reset) with (String c (s +:+ reset)).
    cbn [splitlines lines_open]. destruct (is_linebreak c).
    + destruct s as [|d s].
      * destruct (Ascii.eqb c CR); reflexivity.
      * change (String d s +:+ reset) with (String d (s +:+ reset)).
        simpl in Hn. cbn iota.
        destruct (Ascii.eqb c CR && Ascii.eqb d LF).
        -- rewrite (IH s) by lia. now destruct (lines_open s).
        -- change (String d (s +:+ reset)) with (String d s +:+ reset).
           rewrite (IH (String d s)) by (simpl; lia).
           now destruct (lines_open (String d s)).
    + rewrite (IH s) by lia.
      destruct (lines_open s) as [[|l ls] q]; reflexivity.
Qed.

Lemma splitlines_app_reset (s : string) :
  splitlines (s +:+ reset) = fst (lines_open s) ++ [snd (lines_open s) +:+ reset].
Proof. now apply (splitlines_app_reset_bounded (String.length s)). Qed.

Lemma lines_open_plain_prefix (p v : string) :
  forallb (fun c => negb (is_linebreak c)) (list_ascii_of_string p) = true ->
  lines_open (p +:+ v) =
  match lines_open v with
  | (l :: ls, q) => ((p +:+ l) :: ls, q)
  | ([], q) => ([], p +:+ q)
  end.
Proof.
  induction p as [|c p IH]; intros Hp.
  - change (EmptyString +:+ v) with v. now destruct (lines_open v) as [[|l ls] q].
  - cbn [list_ascii_of_string forallb] in Hp. apply andb_true_iff in Hp as [Hc Hp].
    apply negb_true_iff in Hc.
    change (String c p +:+ v) with (String c (p +:+ v)).
    cbn [lines_open]. rewrite Hc, (IH Hp).
    now destruct (lines_open v) as [[|l ls] q].
Qed.

Lemma join_prefix_head (sep p l : string) (ls : list string) :
  join sep ((p +:+ l) :: ls) = p +:+ join sep (l :: ls).
Proof.
  destruct ls; [reflexivity |].
  rewrite !join_cons_cons. now rewrite str_append_assoc.
Qed.

Lemma join_app_last (sep y t : string) (xs : list string) :
  join sep (xs ++ [y +:+ t]) = join sep (xs ++ [y]) +:+ t.
Proof.
  induction xs as [|x xs IH]; [reflexivity |].
  destruct xs as [|x' xs].
  - cbn [app]. rewrite !join_cons_cons. cbn [app] in IH.
    change (join sep [y +:+ t]) with (y +:+ t).
    change (join sep [y]) with y. now rewrite !str_append_assoc.
  - cbn [app] in IH |- *. rewrite !join_cons_cons, IH.
    now rewrite !str_append_assoc.
Qed.

Lemma nonempty_app_reset (q : string) :
  negb (String.eqb (q +:+ reset) EmptyString) = true.
Proof. now destruct q. Qed.

(** Dropping the empty lines leaves the colouring in place. *)
Lemma trim_keeps_styling (text : string) :
  exists body, trim_empty_lines (error_message text) = error_message body.
Proof.
  unfold trim_empty_lines, linesep.
  rewrite error_message_eq, <- str_append_assoc, splitlines_app_reset.
  rewrite (lines_open_plain_prefix red text eq_refl).
  destruct (lines_open text) as [[|l ls] q]; cbn [fst snd].
  - exists q. cbn [app List.filter]. rewrite nonempty_app_reset.
    now rewrite error_message_eq, str_append_assoc.
  - exists (join nl ((l :: List.filter (fun s => negb (String.eqb s EmptyString)) ls)
                       ++ [q])).
    cbn [app List.filter]. change (negb (String.eqb (red +:+ l) EmptyString)) with true.
    cbn iota. rewrite List.filter_app. cbn [List.filter].
    rewrite nonempty_app_reset, join_prefix_head.
    rewrite app_comm_cons, join_app_last. now rewrite error_message_eq.
Qed.

(** What [stream_text] makes of a text holding ["error"] is coloured:
    the clean-up that runs after the wrapping keeps both escape codes. *)
Lemma stream_text_styled (logger_output : string) :
  contains "error" logger_output = true ->
  error_styled (stream_text logger_output).
Proof.
  intros Herr. unfold stream_text, error_styled. rewrite Herr.
  destruct (delete_line_keeps_styling logger_output) as [body ->].
  apply trim_keeps_styling.
Qed.

End Normalizer.

(* ================================================================== *)
(** ** The dispatch entry point *)
(* ================================================================== *)

Section Dispatch.

Variable h : host.

Lemma do_execute_silent (code : string) (w : world) :
  do_execute h code true w = Returns (ExecuteReply "ok" (execution_count w)) w.
Proof. reflexivity. Qed.

(** A handler text is cleaned up by [stream_text] and sent. *)
Lemma do_execute_handled (code payload text : string) (magics : list string)
    (w w' : world) :
  split_magics code = (magics, payload) ->
  handle h magics payload w = Returns (Some text) w' ->
  do_execute h code false w =
  Returns (ExecuteReply "ok" (execution_count w'))
          (set_iopub (iopub w' ++ [stream_text text]) w').
Proof.
  intros Hsplit Hhandle. unfold do_execute, bind, try_except_Exception.
  cbn [negb]. now rewrite Hsplit, Hhandle.
Qed.

(** An [Exception] out of a handler becomes a red message. *)
Lemma do_execute_caught (code payload : string) (magics : list string)
    (e : exn) (w w' : world) :
  split_magics code = (magics, payload) ->
  handle h magics payload w = Raises e w' ->
  exn_is_Exception e = true ->
  do_execute h code false w =
  Returns (ExecuteReply "ok" (execution_count w'))
          (set_iopub (iopub w' ++ [stream_text (error_message (exn_str e))]) w').
Proof.
  intros Hsplit Hhandle He. unfold do_execute, bind, try_except_Exception.
  cbn [negb]. now rewrite Hsplit, Hhandle, He.
Qed.

(** A branch that leaves [logger_output] unassigned makes the read of
    it behind the [try] block raise, outside of any handler. *)
Lemma do_execute_unassigned (code payload : string) (magics : list string)
    (w w' : world) :
  split_magics code = (magics, payload) ->
  handle h magics payload w = Returns None w' ->
  do_execute h code false w = Raises (UnboundLocalError "logger_output") w'.
Proof.
  intros Hsplit Hhandle. unfold do_execute, bind, try_except_Exception.
  cbn [negb]. now rewrite Hsplit, Hhandle.
Qed.

Lemma str_prefix_decompose (p s : string) :
  String.prefix p s = true -> s = p +:+ drop (String.length p) s.
Proof.
  revert s. induction p as [|a p IH]; intros s H.
  - now destruct s.
  - destruct s as [|b s]; [discriminate |].
    rewrite str_prefix_cons in H. apply andb_true_iff in H as [Hab H].
    apply Ascii.eqb_eq in Hab. subst b. cbn [String.length drop].
    change (String a p +:+ drop (String.length p) s)
      with (String a (p +:+ drop (String.length p) s)).
    f_equal. now apply IH.
Qed.

Lemma route_shutdown (magics : list string) (payload : string) :
  startswith payload shutd = true -> route magics payload = Shutdown.
Proof.
  intros H. apply str_prefix_decompose in H. rewrite H.
  unfold route, startswith. cbn. now rewrite ?str_prefix_nil_l.
Qed.

Lemma route_inspect (magics : list string) (payload : string) :
  startswith payload inspect_command = true -> route magics payload = Inspect.
Proof.
  intros H. apply str_prefix_decompose in H. rewrite H.
  unfold route, startswith. cbn. now rewrite ?str_prefix_nil_l.
Qed.

Lemma route_newfile (magics : list string) (payload : string) :
  startswith payload newfile = true -> route magics payload = NewFile.
Proof.
  intros H. apply str_prefix_decompose in H. rewrite H.
  unfold route, startswith. cbn. now rewrite ?str_prefix_nil_l.
Qed.

Lemma route_load (magics : list string) (payload : string) :
  startswith payload load_command = true -> route magics payload = Load.
Proof.
  intros H. apply str_prefix_decompose in H. rewrite H.
  unfold route, startswith. cbn. now rewrite ?str_prefix_nil_l.
Qed.

(** C2, as amended.  The text a handler leaves is first wrapped in the
    error colouring when it holds the literal ["error"]; the load notice
    is stripped from the result, and the empty lines are dropped last.
    The text sent is that of these three steps in this order, and the
    colouring of a text holding ["error"] is still in place in it. *)
Theorem do_execute_normalizes (code payload text : string)
    (magics : list string) (w w' : world) :
  split_magics code = (magics, payload) ->
  handle h magics payload w = Returns (Some text) w' ->
  do_execute h code false w =
    Returns (ExecuteReply "ok" (execution_count w'))
      (set_iopub
         (iopub w' ++
            [trim_empty_lines
               (delete_line_from_string
                  (if contains "error" text then error_message text else text))])
         w')
  /\ (contains "error" text = true ->
      error_styled
        (trim_empty_lines (delete_line_from_string (error_message text)))).
Proof.
  intros Hsplit Hhandle. split.
  - apply (do_execute_handled code payload text magics w w' Hsplit Hhandle).
  - intros Herr. pose proof (stream_text_styled text Herr) as Hst.
    unfold stream_text in Hst. now rewrite Herr in Hst.
Qed.

(** C4.  [do_shutdown] answers [restart = False] and sends the one
    message ["Kernel Shutdown!"], whatever the world and its argument;
    a request whose payload begins with [$shutdown] leaves the world
    with exactly that one message more, and the pipes of the REPL
    process as they were. *)
Theorem shutdown_one_message (code : string) (w : world) (restart_arg : bool) :
  startswith (snd (split_magics code)) shutd = true ->
  do_shutdown restart_arg w =
    Returns (ShutdownReply false) (set_iopub (iopub w ++ ["Kernel Shutdown!"]) w)
  /\ final_world (do_execute h code false w) =
       Some (set_iopub (iopub w ++ ["Kernel Shutdown!"]) w)
  /\ metacall_subprocess (set_iopub (iopub w ++ ["Kernel Shutdown!"]) w) =
       metacall_subprocess w.
Proof.
  intros Hshut. split; [reflexivity |]. split; [| reflexivity].
  destruct (split_magics code) as [magics payload] eqn:Hsplit. cbn [snd] in Hshut.
  rewrite (do_execute_unassigned code payload magics w
             (set_iopub (iopub w ++ ["Kernel Shutdown!"]) w) Hsplit);
    [reflexivity |].
  unfold handle. now rewrite (route_shutdown magics payload Hshut).
Qed.

(** Every branch but [$shutdown] assigns [logger_output]. *)
Lemma handle_assigns (magics : list string) (payload : string) (w w' : world) :
  handle h magics payload w = Returns None w' ->
  route magics payload = Shutdown.
Proof.
  unfold handle. destruct (route magics payload); try reflexivity; unfold bind, ret.
  - discriminate.
  - destruct (shell_execute h payload shcmd w); discriminate.
  - destruct (metacall_inspect h w); discriminate.
  - destruct (metacall_load payload w); discriminate.
  - destruct (newfile_magic payload w); discriminate.
  - destruct (extensions !! magic_lang magics); [| discriminate].
    unfold bind. destruct (metacall_execute h payload s w); discriminate.
  - destruct (metacall_repl payload w); [| discriminate | discriminate].
    destruct (byte_to_string a w0); discriminate.
Qed.

(** An [Exception] leaves [do_execute] on the [$shutdown] branch only. *)
Lemma do_execute_raises_on_shutdown_only (code : string) (w w' : world) (e : exn) :
  do_execute h code false w = Raises e w' ->
  exn_is_Exception e = true ->
  route (fst (split_magics code)) (snd (split_magics code)) = Shutdown.
Proof.
  unfold do_execute, bind, try_except_Exception. cbn [negb].
  destruct (split_magics code) as [magics payload]. cbn [fst snd].
  destruct (handle h magics payload w) as [[text |] w1 | e1 w1 |] eqn:Hh.
  - discriminate.
  - intros _ _. now apply (handle_assigns magics payload w w1).
  - destruct (exn_is_Exception e1) eqn:He1; [discriminate |].
    intros [= <- <-] He. congruence.
  - discriminate.
Qed.
(** C5 fails on [$shutdown].  [do_shutdown] sends its message, the
    branch assigns nothing to [logger_output], and the test that follows
    the [try] block raises [UnboundLocalError] out of [do_execute]. *)
Theorem do_execute_shutdown_raises (w : world) :
  do_execute h "$shutdown" false w =
  Raises (UnboundLocalError "logger_output")
         (set_iopub (iopub w ++ ["Kernel Shutdown!"]) w).
Proof. reflexivity. Qed.

End Dispatch.

Lemma do_execute_normalizes_witness :
  do_execute (sample_host [] []) "$help" false (sample_world [] ∅) =
  Returns (ExecuteReply "ok" 0)
    (set_iopub [help_text] (sample_world [] ∅)).
Proof.
  apply (do_execute_normalizes (sample_host [] []) "$help" "$help" help_text []
           (sample_world [] ∅) (sample_world [] ∅)); reflexivity.
Defined.

Lemma shutdown_one_message_witness :
  final_world
    (do_execute (sample_host [] []) (">python" +:+ nl +:+ "$shutdown") false
       (sample_world [] ∅)) =
  Some (set_iopub ["Kernel Shutdown!"] (sample_world [] ∅)).
Proof.
  apply (shutdown_one_message (sample_host [] [])
           (">python" +:+ nl +:+ "$shutdown") (sample_world [] ∅) true).
  reflexivity.
Defined.

(** C2, as stated, fails: the REPL answers with a load notice that
    names a script called [error].  The kernel colours first and strips
    afterwards, so the two escape codes are sent; cleaning first leaves
    nothing to colour. *)
Lemma normalize_order_counterexample :
  let line := "Script (error) loaded correctly" +:+ nl in
  handle (sample_host [] []) [] "load()" (sample_world [line] ∅) =
    Returns (Some line)
      (set_subprocess (Repl None [] (bytes_of ("load()" +:+ nl)) [] false)
         (sample_world [line] ∅))
  /\ iopub <$> final_world
       (do_execute (sample_host [] []) "load()" false (sample_world [line] ∅))
     = Some [String ESC "[0;31m" +:+ nl +:+ String ESC "[0m"]
  /\ spec_normalize line = EmptyString
  /\ stream_text line <> spec_normalize line.
Proof.
  cbv zeta. repeat split; try reflexivity. vm_compute. discriminate.
Qed.

(* ================================================================== *)
(** ** Directives and the one-shot script runner *)
(* ================================================================== *)

Section DirectiveExecute.

Variable h : host.

Lemma route_directive (magics : list string) (payload : string) :
  magics <> [] ->
  startswith payload help_command = false ->
  startswith payload shcmd = false ->
  startswith payload inspect_command = false ->
  startswith payload load_command = false ->
  startswith payload newfile = false ->
  startswith payload shutd = false ->
  route magics payload = DirectiveExecute.
Proof.
  intros Hm H1 H2 H3 H4 H5 H6. unfold route.
  rewrite H1, H2, H3, H4, H5, H6. now destruct magics.
Qed.

(** C1, as amended.  An input with directives whose payload begins with
    none of the six tokens takes the [elif magics] branch.  The target
    language is the lowercased concatenation of all the directive tags:
    the first tag when there is one directive.  A supported language
    runs the payload with its extension; any other yields the "We don't
    suppport" message, which [do_execute] sends without raising.
    [>python] before [print(1)] gives the tag [python], extension [.py]. *)
Theorem directive_execute_routing (code payload : string)
    (magics : list string) (w : world) :
  split_magics code = (magics, payload) ->
  magics <> [] ->
  startswith payload help_command = false ->
  startswith payload shcmd = false ->
  startswith payload inspect_command = false ->
  startswith payload load_command = false ->
  startswith payload newfile = false ->
  startswith payload shutd = false ->
  route magics payload = DirectiveExecute
  /\ magic_lang magics = lower (fold_right String.append EmptyString magics)
  /\ (forall tag, magics = [tag] -> magic_lang magics = lower tag)
  /\ (forall extension,
        extensions !! magic_lang magics = Some extension ->
        handle h magics payload w =
        (let! out := metacall_execute h payload extension in ret (Some out)) w)
  /\ (extensions !! magic_lang magics = None ->
        handle h magics payload w =
          Returns (Some (unsupported_message (magic_lang magics))) w
        /\ do_execute h code false w =
           Returns (ExecuteReply "ok" (execution_count w))
             (set_iopub
                (iopub w ++ [stream_text (unsupported_message (magic_lang magics))])
                w))
  /\ split_magics (">python" +:+ nl +:+ "print(1)") = (["python"], "print(1)")
  /\ extensions !! magic_lang ["python"] = Some ".py".
Proof.
  intros Hsplit Hm H1 H2 H3 H4 H5 H6.
  pose proof (route_directive magics payload Hm H1 H2 H3 H4 H5 H6) as Hroute.
  split; [exact Hroute |]. split.
  { unfold magic_lang, join. f_equal. clear.
    induction magics as [|x [|y ms] IH]; [reflexivity | | ].
    - cbn. now rewrite str_append_empty_r.
    - cbn [String.concat fold_right] in IH |- *. now rewrite IH. }
  split; [now intros tag -> |]. split.
  { intros extension Hext. unfold handle. now rewrite Hroute, Hext. }
  split; [| split; reflexivity].
  intros Hext.
  assert (Hh : handle h magics payload w =
               Returns (Some (unsupported_message (magic_lang magics))) w).
  { unfold handle. now rewrite Hroute, Hext. }
  split; [exact Hh |].
  apply (do_execute_handled h code payload _ magics w w Hsplit Hh).
Qed.

(** What the script runner makes of the two streams. *)
Lemma metacall_execute_streams (code extension : string) (out err : bytes)
    (w w' : world) :
  run_metacall h (utf8_encode code) extension w = Returns (out, err) w' ->
  metacall_execute h code extension w =
  Returns
    (fold_left (fun acc item => acc +:+ item +:+ nl)
       (split "\n" (slice_2_m5 (repr_bytes out +:+ nl +:+ repr_bytes err)))
       EmptyString) w'.
Proof. intros Hrun. unfold metacall_execute, bind. now rewrite Hrun. Qed.

(** C7, as amended.  When the one-shot process writes nothing on either
    stream the captured output is one line feed, and empty once cleaned
    up: the message sent is the empty text.  Whatever the streams hold,
    the message sent is wrapped in the error colouring whenever the
    captured output holds the literal ["error"]. *)
Theorem metacall_execute_quiet_or_styled (code payload extension : string)
    (magics : list string) (out err : bytes) (w w' : world) :
  split_magics code = (magics, payload) ->
  route magics payload = DirectiveExecute ->
  extensions !! magic_lang magics = Some extension ->
  run_metacall h (utf8_encode payload) extension w = Returns (out, err) w' ->
  exists captured,
    metacall_execute h payload extension w = Returns captured w'
    /\ do_execute h code false w =
       Returns (ExecuteReply "ok" (execution_count w'))
         (set_iopub (iopub w' ++ [stream_text captured]) w')
    /\ (out = [] -> err = [] ->
        captured = nl /\ stream_text captured = EmptyString)
    /\ (contains "error" captured = true -> error_styled (stream_text captured)).
Proof.
  intros Hsplit Hroute Hext Hrun.
  pose proof (metacall_execute_streams payload extension out err w w' Hrun) as Hex.
  eexists. split; [exact Hex |]. split.
  { apply (do_execute_handled h code payload _ magics w w' Hsplit).
    unfold handle, bind. now rewrite Hroute, Hext, Hex. }
  split; [intros -> ->; split; reflexivity |].
  apply stream_text_styled.
Qed.

End DirectiveExecute.

Lemma directive_execute_routing_witness :
  do_execute (sample_host [] []) (">Ruby" +:+ nl +:+ "puts 1") false
    (sample_world [] ∅) =
  Returns (ExecuteReply "ok" 0)
    (set_iopub [stream_text (unsupported_message "ruby")] (sample_world [] ∅)).
Proof.
  apply (directive_execute_routing (sample_host [] [])
           (">Ruby" +:+ nl +:+ "puts 1") "puts 1" ["Ruby"] (sample_world [] ∅));
    first [reflexivity | discriminate].
Defined.

Lemma metacall_execute_quiet_or_styled_witness :
  exists captured,
    metacall_execute (sample_host [] []) "pass" ".py" (sample_world [] ∅) =
      Returns captured (sample_world [] ∅)
    /\ do_execute (sample_host [] []) (">python" +:+ nl +:+ "pass") false
         (sample_world [] ∅) =
       Returns (ExecuteReply "ok" 0)
         (set_iopub [stream_text captured] (sample_world [] ∅))
    /\ (@nil byte = [] -> @nil byte = [] ->
        captured = nl /\ stream_text captured = EmptyString)
    /\ (contains "error" captured = true -> error_styled (stream_text captured)).
Proof.
  apply (metacall_execute_quiet_or_styled (sample_host [] [])
           (">python" +:+ nl +:+ "pass") "pass" ".py" ["python"] [] []
           (sample_world [] ∅) (sample_world [] ∅)); reflexivity.
Defined.

(** C1, as stated, fails on two directives: the first tag is [python],
    a supported language, but the kernel looks up [pythonjavascript] and
    answers that the language is not supported. *)
Lemma first_directive_counterexample :
  let code := ">python" +:+ nl +:+ ">javascript" +:+ nl +:+ "print(1)" in
  split_magics code = (["python"; "javascript"], "print(1)")
  /\ route ["python"; "javascript"] "print(1)" = DirectiveExecute
  /\ extensions !! spec_target_language ["python"; "javascript"] = Some ".py"
  /\ magic_lang ["python"; "javascript"] = "pythonjavascript"
  /\ magic_lang ["python"; "javascript"]
     <> spec_target_language ["python"; "javascript"]
  /\ handle (sample_host [] []) ["python"; "javascript"] "print(1)"
       (sample_world [] ∅) =
     Returns (Some (unsupported_message "pythonjavascript")) (sample_world [] ∅).
Proof. cbv zeta. repeat split; try reflexivity. vm_compute. discriminate. Qed.

(** C7, as stated, fails when the process writes [oops] to its standard
    error: the slice [[2:-5]] cuts the text off the captured output, and
    without the word ["error"] nothing is coloured. *)
Lemma stderr_text_counterexample :
  let host := sample_host [] (bytes_of "oops") in
  let code := ">python" +:+ nl +:+ "import sys; sys.stderr.write('oops')" in
  metacall_execute host "import sys; sys.stderr.write('oops')" ".py"
    (sample_world [] ∅) = Returns ("'" +:+ nl +:+ "b'" +:+ nl) (sample_world [] ∅)
  /\ contains "oops" ("'" +:+ nl +:+ "b'" +:+ nl) = false
  /\ do_execute host code false (sample_world [] ∅) =
     Returns (ExecuteReply "ok" 0)
       (set_iopub ["'" +:+ nl +:+ "b'"] (sample_world [] ∅))
  /\ ~ error_styled ("'" +:+ nl +:+ "b'").
Proof.
  cbv zeta. repeat split; try reflexivity.
  intros [body Hbody]. discriminate Hbody.
Qed.

(* ================================================================== *)
(** ** The [$newfile] magic *)
(* ================================================================== *)

Section NewFile.

Variable h : host.

Lemma split_nl_first_line (line rest : string) :
  ascii_in LF line = false ->
  split nl (line +:+ nl +:+ rest) = line :: split nl rest.
Proof.
  induction line as [|c line IH]; intros Hline.
  - change (EmptyString +:+ nl +:+ rest) with (String LF rest).
    now rewrite split_nl_cons.
  - unfold ascii_in in Hline. cbn [list_ascii_of_string existsb] in Hline.
    apply orb_false_iff in Hline as [Hc Hline].
    change (String c line +:+ nl +:+ rest) with (String c (line +:+ nl +:+ rest)).
    rewrite split_nl_cons, Ascii.eqb_sym, Hc, (IH Hline). reflexivity.
Qed.

Lemma split_nl_once_first_line (line rest : string) :
  ascii_in LF line = false ->
  split_nl_once (line +:+ nl +:+ rest) = [line; rest].
Proof.
  induction line as [|c line IH]; intros Hline; [reflexivity |].
  unfold ascii_in in Hline. cbn [list_ascii_of_string existsb] in Hline.
  apply orb_false_iff in Hline as [Hc Hline].
  change (String c line +:+ nl +:+ rest) with (String c (line +:+ nl +:+ rest)).
  cbn [split_nl_once]. rewrite Ascii.eqb_sym, Hc, (IH Hline). reflexivity.
Qed.

Lemma ascii_in_append (c : ascii) (a b : string) :
  ascii_in c (a +:+ b) = ascii_in c a || ascii_in c b.
Proof.
  unfold ascii_in. induction a as [|x a IH]; [reflexivity |].
  change (String x a +:+ b) with (String x (a +:+ b)).
  cbn [list_ascii_of_string existsb]. now rewrite IH, orb_assoc.
Qed.

Lemma lstrip_chars_cons_in (chars : string) (x : ascii) (s : string) :
  ascii_in x chars = true ->
  lstrip_chars chars (String x s) = lstrip_chars chars s.
Proof. intros Hx. cbn [lstrip_chars]. now rewrite Hx. Qed.

Lemma lstrip_newfile_argument (c : ascii) (name : string) :
  ascii_in c "$newfile " = false ->
  lstrip_chars "$newfile " ("$newfile " +:+ String c name) = String c name.
Proof.
  intros Hc.
  change ("$newfile " +:+ String c name)
    with (String "$" (String "n" (String "e" (String "w" (String "f"
           (String "i" (String "l" (String "e" (String " " (String c name)))))))))).
  do 9 (rewrite lstrip_chars_cons_in by reflexivity).
  cbn [lstrip_chars]. now rewrite Hc.
Qed.

(** What [newfile_magic] does with a well-formed request. *)
Lemma newfile_magic_appends (code name rest payload : string) (c : ascii)
    (name' : string) (w : world) :
  name = String c name' ->
  ascii_in c "$newfile " = false ->
  ascii_in LF name = false ->
  code = "$newfile " +:+ name +:+ rest ->
  rest +:+ nl = nl +:+ payload ->
  open_fault w name = None ->
  newfile_magic code w =
  Returns ("File " +:+ name +:+ " is saved.")
    (set_files
       (<[name := default [] (files w !! name) ++ utf8_encode payload]> (files w))
       w).
Proof.
  intros Hname Hc Hlf Hcode Hrest Hopen.
  assert (Hline : ascii_in LF ("$newfile " +:+ name) = false).
  { now rewrite ascii_in_append, Hlf. }
  assert (Hfull : code +:+ nl = ("$newfile " +:+ name) +:+ nl +:+ payload).
  { rewrite Hcode, !str_append_assoc, Hrest. reflexivity. }
  unfold newfile_magic. rewrite Hfull.
  rewrite (split_nl_first_line _ payload Hline).
  rewrite (split_nl_once_first_line _ payload Hline).
  cbn [hd]. rewrite Hname, (lstrip_newfile_argument c name' Hc), <- Hname.
  unfold bind, append_to_file.
  rewrite Hname at 1. cbn [String.eqb]. now rewrite Hopen.
Qed.

Lemma startswith_append (p s : string) : startswith (p +:+ s) p = true.
Proof.
  unfold startswith. induction p as [|a p IH]; [apply str_prefix_nil_l |].
  change (String a p +:+ s) with (String a (p +:+ s)).
  now rewrite str_prefix_cons, Ascii.eqb_refl, IH.
Qed.

(** An input whose first character is neither the marker nor a line
    feed is its own payload. *)
Lemma split_magics_plain (c : ascii) (s : string) :
  Ascii.eqb c ">" = false -> Ascii.eqb c LF = false ->
  split_magics (String c s) = ([], String c s).
Proof.
  intros Hgt Hlf.
  rewrite split_magics_skips_line_feeds.
  - cbn [lstrip_chars]. unfold ascii_in, nl. cbn [list_ascii_of_string existsb].
    now rewrite Hlf.
  - rewrite split_nl_cons, Hlf.
    destruct (split nl s) as [|l ls]; cbn [leading_directive]; unfold startswith;
      now rewrite str_prefix_cons, Ascii.eqb_sym, Hgt.
Qed.

(** C3, as amended.  A request [$newfile <name>] whose name begins with
    a character outside the set [$newfile ] appends the payload (what
    follows the first line, closed by a line feed) to what the file
    held, so a file that did not exist holds exactly the payload; the
    answer names that file, and [do_execute] sends it. *)
Theorem newfile_appends_payload (code name rest payload : string) (c : ascii)
    (name' : string) (w : world) :
  name = String c name' ->
  ascii_in c "$newfile " = false ->
  ascii_in LF name = false ->
  code = "$newfile " +:+ name +:+ rest ->
  rest +:+ nl = nl +:+ payload ->
  open_fault w name = None ->
  let w' :=
    set_files
      (<[name := default [] (files w !! name) ++ utf8_encode payload]> (files w))
      w in
  newfile_magic code w = Returns ("File " +:+ name +:+ " is saved.") w'
  /\ files w' !! name = Some (default [] (files w !! name) ++ utf8_encode payload)
  /\ (files w !! name = None -> files w' !! name = Some (utf8_encode payload))
  /\ do_execute h code false w =
     Returns (ExecuteReply "ok" (execution_count w))
       (set_iopub (iopub w ++ [stream_text ("File " +:+ name +:+ " is saved.")]) w').
Proof.
  intros Hname Hc Hlf Hcode Hrest Hopen w'.
  pose proof (newfile_magic_appends code name rest payload c name' w
                Hname Hc Hlf Hcode Hrest Hopen) as Hmagic.
  fold w' in Hmagic.
  assert (Hlook : files w' !! name =
                  Some (default [] (files w !! name) ++ utf8_encode payload)).
  { unfold w'. cbn [files set_files]. apply lookup_insert_eq. }
  split; [exact Hmagic |]. split; [exact Hlook |]. split.
  { intros Hnone. rewrite Hnone in Hlook. exact Hlook. }
  assert (Hsplit : split_magics code = ([], code)).
  { rewrite Hcode.
    change ("$newfile " +:+ name +:+ rest)
      with (String "$" ("newfile " +:+ name +:+ rest)).
    now apply split_magics_plain. }
  assert (Hroute : route [] code = NewFile).
  { apply route_newfile. rewrite Hcode.
    change ("$newfile " +:+ name +:+ rest)
      with (newfile +:+ (" " +:+ name +:+ rest)).
    apply startswith_append. }
  apply (do_execute_handled h code code _ [] w w' Hsplit).
  unfold handle, bind. now rewrite Hroute, Hmagic.
Qed.

End NewFile.

Lemma newfile_appends_payload_witness :
  newfile_magic ("$newfile a.txt" +:+ nl +:+ "hello") (sample_world [] ∅) =
  Returns "File a.txt is saved."
    (set_files (<["a.txt" := bytes_of ("hello" +:+ nl)]> ∅) (sample_world [] ∅)).
Proof.
  exact (proj1 (newfile_appends_payload (sample_host [] [])
           ("$newfile a.txt" +:+ nl +:+ "hello") "a.txt" (nl +:+ "hello")
           ("hello" +:+ nl) "a" ".txt" (sample_world [] ∅)
           eq_refl eq_refl eq_refl eq_refl eq_refl eq_refl)).
Defined.

(** C3, as stated, fails when the file is there already: the file is
    opened for appending, so it holds the old text before the payload. *)
Lemma newfile_existing_counterexample :
  let before := sample_world [] (<["a.txt" := bytes_of "old"]> ∅) in
  let code := "$newfile a.txt" +:+ nl +:+ "hello" in
  match do_execute (sample_host [] []) code false before with
  | Returns _ after =>
      files after !! "a.txt" = Some (bytes_of ("oldhello" +:+ nl))
      /\ files after !! "a.txt" <> Some (bytes_of ("hello" +:+ nl))
      /\ iopub after = ["File a.txt is saved."]
  | _ => False
  end.
Proof. cbv zeta. vm_compute. repeat split. discriminate. Qed.

(** The argument is cut with [lstrip], which takes a set of characters:
    a name that begins with one of them loses its head. *)
Example newfile_lstrip_eats_name :
  newfile_magic "$newfile notes.txt" (sample_world [] ∅) =
  Returns "File otes.txt is saved."
    (set_files (<["otes.txt" := []]> ∅) (sample_world [] ∅)).
Proof. reflexivity. Qed.

(* ================================================================== *)
(** ** The persistent process: [%load] and [%inspect] *)
(* ================================================================== *)

Section PersistentProcess.

Variable h : host.

Lemma metacall_load_catches (code : string) (w w' : world) (e : exn) :
  load_exchange code w = Raises e w' ->
  metacall_load code w = Returns "The file was not loaded onto the Kernel" w'.
Proof. intros H. unfold metacall_load, try_except. now rewrite H. Qed.

Lemma metacall_load_no_raise (code : string) (w w' : world) (e : exn) :
  metacall_load code w <> Raises e w'.
Proof.
  unfold metacall_load, try_except.
  destruct (load_exchange code w); discriminate.
Qed.

Lemma load_exchange_unspawned (code : string) (w : world) :
  metacall_subprocess w = None ->
  exists e, load_exchange code w = Raises e w.
Proof.
  intros Hw. eexists. unfold load_exchange, bind, stdin_write, bind, get_subprocess.
  now rewrite Hw.
Qed.

Lemma load_exchange_broken_pipe (code : string) (w : world) (p : repl) (e : exn) :
  metacall_subprocess w = Some p -> stdin_fault p = Some e ->
  load_exchange code w = Raises e w.
Proof.
  intros Hw Hp. unfold load_exchange, bind, stdin_write, bind, get_subprocess.
  now rewrite Hw, Hp.
Qed.

Lemma load_exchange_read_error (code : string) (w : world) (p : repl) (e : exn)
    (rest : list read_event) :
  metacall_subprocess w = Some p -> stdin_fault p = None ->
  stdout_script p = ReadError e :: rest ->
  load_exchange code w =
  Raises e (set_subprocess (after_exchange p (utf8_encode (lstrip code +:+ nl)) rest) w).
Proof.
  intros Hw Hp Hs.
  unfold load_exchange, bind, stdin_write, stdin_flush, stdout_readline, bind,
    get_subprocess.
  rewrite Hw, Hp. cbn. now rewrite Hs.
Qed.

(** C9.  [metacall_load] never raises.  Whatever the exchange with the
    process raises (the attribute missing because the process never
    started, a write or flush on a broken pipe, a failing read) is
    turned into the message "The file was not loaded onto the Kernel". *)
Theorem metacall_load_never_raises (code : string) (w : world) :
  (forall e w', metacall_load code w <> Raises e w')
  /\ (forall e w', load_exchange code w = Raises e w' ->
        metacall_load code w =
        Returns "The file was not loaded onto the Kernel" w')
  /\ (metacall_subprocess w = None ->
        metacall_load code w =
        Returns "The file was not loaded onto the Kernel" w)
  /\ (forall p e, metacall_subprocess w = Some p -> stdin_fault p = Some e ->
        metacall_load code w =
        Returns "The file was not loaded onto the Kernel" w)
  /\ (forall p e rest,
        metacall_subprocess w = Some p -> stdin_fault p = None ->
        stdout_script p = ReadError e :: rest ->
        metacall_load code w =
        Returns "The file was not loaded onto the Kernel"
          (set_subprocess
             (after_exchange p (utf8_encode (lstrip code +:+ nl)) rest) w))
  /\ (forall magics e w',
        startswith code load_command = true ->
        handle h magics code w <> Raises e w').
Proof.
  split; [intros e w'; apply metacall_load_no_raise |].
  split; [intros e w'; apply metacall_load_catches |].
  split.
  { intros Hw. destruct (load_exchange_unspawned code w Hw) as [e He].
    now apply (metacall_load_catches code w w e). }
  split.
  { intros p e Hw Hp. apply (metacall_load_catches code w w e).
    now apply (load_exchange_broken_pipe code w p e). }
  split.
  { intros p e rest Hw Hp Hs. apply (metacall_load_catches code w _ e).
    now apply load_exchange_read_error. }
  intros magics e w' Hload. unfold handle, bind.
  rewrite (route_load magics code Hload).
  destruct (metacall_load code w) eqn:Hml; try discriminate.
  now apply metacall_load_no_raise in Hml.
Qed.

Lemma join_empty_cons (t : string) (ts : list string) :
  join EmptyString (t :: ts) = t +:+ join EmptyString ts.
Proof.
  destruct ts; [cbn; now rewrite str_append_empty_r | reflexivity].
Qed.

(** The loop of [metacall_inspect] reads up to the first line that is a
    lone line feed, that line included, and joins what it decoded. *)
Lemma inspect_loop_reads (pre : list bytes) :
  forall (texts : list string) (acc : string) (turns : nat) (p : repl)
         (w : world) (rest : list read_event),
    metacall_subprocess w = Some p ->
    stdout_script p = map Line pre ++ Line [byte_of_ascii LF] :: rest ->
    Forall2 (fun l t => bytes_eqb l [byte_of_ascii LF] = false
                        /\ utf8_decode l = Some t) pre texts ->
    length pre < turns ->
    inspect_loop turns acc w =
    Returns (acc +:+ join EmptyString texts +:+ nl)
      (set_subprocess
         (Repl (stdin_fault p) (stdin_buffer p) (stdin_sent p) rest (stdout_eof p))
         w).
Proof.
  induction pre as [|l pre IH]; intros texts acc turns p w rest Hw Hs Hdec Hturns.
  - inversion Hdec; subst. destruct turns as [|turns]; [lia |].
    cbn [inspect_loop]. unfold bind, stdout_readline, bind, get_subprocess.
    rewrite Hw, Hs. reflexivity.
  - inversion Hdec as [|l' t pre' texts' [Hne Ht] Hrest]; subst.
    destruct turns as [|turns]; [simpl in Hturns; lia |].
    cbn [inspect_loop]. unfold bind at 1. unfold stdout_readline, bind, get_subprocess.
    rewrite Hw, Hs. cbn [map app]. unfold bytes_decode. rewrite Ht. unfold ret.
    rewrite Hne.
    set (p1 := Repl (stdin_fault p) (stdin_buffer p) (stdin_sent p)
                 (map Line pre ++ Line [byte_of_ascii LF] :: rest) (stdout_eof p)).
    rewrite (IH texts' (acc +:+ t) turns p1 (set_subprocess p1 w) rest
               eq_refl eq_refl Hrest); [| simpl in Hturns; lia].
    rewrite join_empty_cons, !str_append_assoc. reflexivity.
Qed.

Lemma set_subprocess_twice (p q : repl) (w : world) :
  set_subprocess p (set_subprocess q w) = set_subprocess p w.
Proof. reflexivity. Qed.

Lemma metacall_inspect_reads (w : world) (p : repl) (pre : list bytes)
    (texts : list string) (rest : list read_event) :
  metacall_subprocess w = Some p ->
  stdin_fault p = None ->
  stdout_script p = map Line pre ++ Line [byte_of_ascii LF] :: rest ->
  Forall2 (fun l t => bytes_eqb l [byte_of_ascii LF] = false
                      /\ utf8_decode l = Some t) pre texts ->
  metacall_inspect h w =
  match json_loads h (join EmptyString texts +:+ nl) with
  | inr symbols =>
      Returns symbols
        (set_subprocess (after_exchange p (utf8_encode ("%inspect" +:+ nl)) rest) w)
  | inl e =>
      Raises e
        (set_subprocess (after_exchange p (utf8_encode ("%inspect" +:+ nl)) rest) w)
  end.
Proof.
  intros Hw Hp Hs Hdec.
  unfold metacall_inspect, bind, stdin_write, stdin_flush, bind, get_subprocess.
  rewrite Hw, Hp. cbn [metacall_subprocess set_subprocess stdin_fault
                        stdin_buffer stdin_sent stdout_script stdout_eof].
  set (p2 := Repl None [] _ (stdout_script p) (stdout_eof p)).
  unfold pending_reads. cbn [metacall_subprocess set_subprocess].
  rewrite set_subprocess_twice.
  rewrite (inspect_loop_reads pre texts EmptyString _ p2 (set_subprocess p2 w)
             rest eq_refl Hs Hdec).
  - change (EmptyString +:+ join EmptyString texts +:+ nl)
      with (join EmptyString texts +:+ nl).
    destruct (json_loads h (join EmptyString texts +:+ nl)); reflexivity.
  - subst p2. cbn [stdout_script]. rewrite Hs, length_app, length_map. lia.
Qed.

(** C8.  A request whose payload begins with [%inspect], made while the
    process will answer with the lines [pre], none a lone line feed and
    each decodable, and then a lone line feed: the handler sends
    [%inspect] and a line feed, reads exactly those lines, hands their
    concatenation (the closing line feed included) to [json.loads] and
    answers with [json.dumps] of the result.  For two lines, with a
    [json.loads] that takes no notice of the final line feed, the answer
    is the two lines' concatenation parsed as one object, serialised. *)
Theorem inspect_reads_until_blank_line (code payload : string)
    (magics : list string) (w : world) (p : repl) (pre : list bytes)
    (texts : list string) (rest : list read_event) :
  split_magics code = (magics, payload) ->
  startswith payload inspect_command = true ->
  metacall_subprocess w = Some p ->
  stdin_fault p = None ->
  stdout_script p = map Line pre ++ Line [byte_of_ascii LF] :: rest ->
  Forall2 (fun l t => bytes_eqb l [byte_of_ascii LF] = false
                      /\ utf8_decode l = Some t) pre texts ->
  let w' :=
    set_subprocess (after_exchange p (utf8_encode ("%inspect" +:+ nl)) rest) w in
  let inspect := join EmptyString texts +:+ nl in
  metacall_inspect h w =
    match json_loads h inspect with
    | inr symbols => Returns symbols w'
    | inl e => Raises e w'
    end
  /\ (forall symbols,
        json_loads h inspect = inr symbols ->
        handle h magics payload w = Returns (Some (json_dumps h symbols)) w'
        /\ do_execute h code false w =
           Returns (ExecuteReply "ok" (execution_count w))
             (set_iopub (iopub w ++ [stream_text (json_dumps h symbols)]) w'))
  /\ (forall t1 t2 symbols,
        texts = [t1; t2] ->
        json_loads h (t1 +:+ t2 +:+ nl) = json_loads h (t1 +:+ t2) ->
        json_loads h (t1 +:+ t2) = inr symbols ->
        handle h magics payload w = Returns (Some (json_dumps h symbols)) w').
Proof.
  intros Hsplit Hpay Hw Hp Hs Hdec w' inspect.
  pose proof (metacall_inspect_reads w p pre texts rest Hw Hp Hs Hdec) as Hread.
  fold w' inspect in Hread.
  assert (Hhandle : forall symbols, json_loads h inspect = inr symbols ->
            handle h magics payload w = Returns (Some (json_dumps h symbols)) w').
  { intros symbols Hj. unfold handle, bind.
    rewrite (route_inspect magics payload Hpay), Hread, Hj. reflexivity. }
  split; [exact Hread |]. split.
  - intros symbols Hj. split; [now apply Hhandle |].
    apply (do_execute_handled h code payload _ magics w w' Hsplit).
    now apply Hhandle.
  - intros t1 t2 symbols Htexts Hnl Hj. apply Hhandle.
    unfold inspect. rewrite Htexts.
    change (join EmptyString [t1; t2]) with (t1 +:+ EmptyString +:+ t2).
    change (EmptyString +:+ t2) with t2.
    now rewrite str_append_assoc, Hnl.
Qed.

End PersistentProcess.

Lemma inspect_reads_until_blank_line_witness :
  handle (sample_host [] []) [] "%inspect"
    (sample_world [inspect_line_1; inspect_line_2; nl; "later"] ∅) =
  Returns (Some (rstrip (inspect_line_1 +:+ inspect_line_2)))
    (set_subprocess
       (Repl None [] (bytes_of ("%inspect" +:+ nl)) [Line (bytes_of "later")] false)
       (sample_world [inspect_line_1; inspect_line_2; nl; "later"] ∅)).
Proof.
  refine (proj2 (proj2
    (inspect_reads_until_blank_line (sample_host [] []) "%inspect" "%inspect" []
       (sample_world [inspect_line_1; inspect_line_2; nl; "later"] ∅)
       (sample_repl [inspect_line_1; inspect_line_2; nl; "later"])
       [bytes_of inspect_line_1; bytes_of inspect_line_2]
       [inspect_line_1; inspect_line_2]
       [Line (bytes_of "later")]
       eq_refl eq_refl eq_refl eq_refl eq_refl _))
    inspect_line_1 inspect_line_2 _ eq_refl eq_refl eq_refl).
  repeat constructor.
Defined.

Lemma metacall_load_never_raises_witness :
  metacall_load "%load py a.py" (World None ∅ (fun _ => None) [] 0) =
  Returns "The file was not loaded onto the Kernel"
    (World None ∅ (fun _ => None) [] 0).
Proof.
  exact (proj1 (proj2 (proj2
    (metacall_load_never_raises (sample_host [] []) "%load py a.py"
       (World None ∅ (fun _ => None) [] 0)))) eq_refl).
Defined.

(* ================================================================== *)
(** ** More on the magic parser and the router *)
(* ================================================================== *)

Section ParserAndRouter.

Lemma lines_decompose (lines : list string) :
  exists pre rest,
    lines = pre ++ rest
    /\ forallb directive_phase_line pre = true
    /\ payload_start rest = true.
Proof.
  induction lines as [|l ls (pre & rest & Heq & Hpre & Hrest)].
  - now exists [], [].
  - destruct (directive_phase_line l) eqn:Hl.
    + exists (l :: pre), rest. cbn [app forallb]. rewrite Hl, Hpre, Heq. auto.
    + exists [], (l :: ls). cbn [app forallb payload_start]. now rewrite Hl.
Qed.

Lemma split_nl_lf_free (s : string) :
  Forall (fun l => ascii_in LF l = false) (split nl s).
Proof.
  induction s as [|c s IH]; [repeat constructor |].
  rewrite split_nl_cons. destruct (Ascii.eqb c LF) eqn:Hc.
  - now constructor.
  - destruct (split nl s) as [|l ls] eqn:Hs; [now apply split_nl_not_nil in Hs |].
    inversion IH as [|? ? Hl Hls]; subst. constructor; [| exact Hls].
    unfold ascii_in in *. cbn [list_ascii_of_string existsb].
    now rewrite Ascii.eqb_sym, Hc, Hl.
Qed.

Lemma split_join_nl (ls : list string) :
  ls <> [] ->
  Forall (fun l => ascii_in LF l = false) ls ->
  split nl (join nl ls) = ls.
Proof.
  induction ls as [|l ls IH]; [congruence |]. intros _ Hall.
  inversion Hall as [|? ? Hl Hls]; subst.
  destruct ls as [|l' ls].
  - change (join nl [l]) with l. clear IH Hall Hls. induction l as [|c l IHl]; [reflexivity |].
    unfold ascii_in in Hl. cbn [list_ascii_of_string existsb] in Hl.
    apply orb_false_iff in Hl as [Hc Hl].
    rewrite split_nl_cons, Ascii.eqb_sym, Hc.
    unfold ascii_in in IHl. now rewrite (IHl Hl).
  - rewrite join_cons_cons, (split_nl_first_line l _ Hl).
    now rewrite IH.
Qed.

(** No line is lost: the lines of an input are a directive phase
    (directives and empty lines) followed by the lines of the payload,
    in order and unchanged; the directive list holds the directives of
    the phase, in order. *)
Theorem split_magics_keeps_lines (code : string) :
  exists pre rest,
    split nl code = pre ++ rest
    /\ forallb directive_phase_line pre = true
    /\ payload_start rest = true
    /\ fst (split_magics code) =
       map (lstrip_chars ">") (List.filter (fun l => startswith l ">") pre)
    /\ snd (split_magics code) = join nl rest
    /\ (rest <> [] -> split nl (snd (split_magics code)) = rest).
Proof.
  destruct (lines_decompose (split nl code)) as (pre & rest & Heq & Hpre & Hrest).
  exists pre, rest.
  assert (Hres : split_magics code =
    (map (lstrip_chars ">") (List.filter (fun l => startswith l ">") pre),
     join nl rest)).
  { unfold split_magics. rewrite Heq.
    now rewrite (split_magics_loop_phase pre rest [] [] Hpre Hrest). }
  rewrite Hres. cbn [fst snd]. repeat split; auto.
  intros Hne. apply split_join_nl; [exact Hne |].
  pose proof (split_nl_lf_free code) as Hall. rewrite Heq in Hall.
  apply Forall_app in Hall. tauto.
Qed.

Lemma route_help (magics : list string) (payload : string) :
  startswith payload help_command = true -> route magics payload = Help.
Proof. intros H. unfold route. now rewrite H. Qed.

Lemma route_shell (magics : list string) (payload : string) :
  startswith payload shcmd = true -> route magics payload = ShellCommand.
Proof.
  intros H. apply str_prefix_decompose in H. rewrite H.
  unfold route, startswith. cbn. now rewrite ?str_prefix_nil_l.
Qed.

(** A payload that begins with one of the six tokens is routed by that
    token, whatever directives stand in front of it: the directives are
    looked at only when no token matches. *)
Theorem route_token_before_directives (magics : list string) (payload : string) :
  (startswith payload help_command = true -> route magics payload = Help)
  /\ (startswith payload shcmd = true -> route magics payload = ShellCommand)
  /\ (startswith payload inspect_command = true -> route magics payload = Inspect)
  /\ (startswith payload load_command = true -> route magics payload = Load)
  /\ (startswith payload newfile = true -> route magics payload = NewFile)
  /\ (startswith payload shutd = true -> route magics payload = Shutdown).
Proof.
  repeat split.
  - apply route_help.
  - apply route_shell.
  - apply route_inspect.
  - apply route_load.
  - apply route_newfile.
  - apply route_shutdown.
Qed.

(** The entries of [extensions], as [magic_lang] looks them up. *)
Lemma extensions_supported (magics : list string) (extension : string) :
  extensions !! magic_lang magics = Some extension <->
  (lower (join EmptyString magics) = "python" /\ extension = ".py")
  \/ (lower (join EmptyString magics) = "javascript" /\ extension = ".js").
Proof.
  unfold magic_lang, extensions.
  set (lang := lower (join EmptyString magics)). clearbody lang.
  rewrite lookup_insert. case_decide as Hpy.
  - subst lang. split.
    + intros [= <-]. now left.
    + intros [[_ ->] | [Hjs _]]; [reflexivity | discriminate].
  - rewrite lookup_insert. case_decide as Hjs.
    + subst lang. split.
      * intros [= <-]. now right.
      * intros [[Hp _] | [_ ->]]; [discriminate | reflexivity].
    + rewrite lookup_empty. split; [discriminate |].
      intros [[Hp _] | [Hj _]]; congruence.
Qed.

(** What the directive branch does with the tags.  It runs the payload
    as a script exactly when the tags, joined and lowercased, spell
    [python] (with the extension [.py]) or [javascript] (with [.js]), in
    any mix of upper and lower case in the input; for every other tag
    string no script is run: the answer is the "We don't suppport"
    message and the world is as it was. *)
Theorem directive_branch_languages (h : host) (magics : list string)
    (payload : string) (w : world) :
  route magics payload = DirectiveExecute ->
  let lang := lower (join EmptyString magics) in
  handle h magics payload w =
  if String.eqb lang "python"
  then (let! out := metacall_execute h payload ".py" in ret (Some out)) w
  else if String.eqb lang "javascript"
  then (let! out := metacall_execute h payload ".js" in ret (Some out)) w
  else Returns (Some (unsupported_message lang)) w.
Proof.
  intros Hroute lang. unfold handle. rewrite Hroute.
  fold lang. change (magic_lang magics) with lang.
  destruct (extensions !! lang) as [extension |] eqn:Hext.
  - apply (extensions_supported magics extension) in Hext.
    fold lang in Hext. destruct Hext as [[Hl ->] | [Hl ->]]; rewrite Hl; reflexivity.
  - destruct (String.eqb lang "python") eqn:Hpy.
    + apply String.eqb_eq in Hpy.
      pose proof (proj2 (extensions_supported magics ".py")
                    (or_introl (conj Hpy eq_refl))) as Hsome.
      change (magic_lang magics) with lang in Hsome. congruence.
    + destruct (String.eqb lang "javascript") eqn:Hjs; [| reflexivity].
      apply String.eqb_eq in Hjs.
      pose proof (proj2 (extensions_supported magics ".js")
                    (or_intror (conj Hjs eq_refl))) as Hsome.
      change (magic_lang magics) with lang in Hsome. congruence.
Qed.

End ParserAndRouter.

Lemma route_token_before_directives_witness :
  route ["python"] "!ls" = ShellCommand.
Proof.
  exact (proj1 (proj2 (route_token_before_directives ["python"] "!ls")) eq_refl).
Defined.

Lemma directive_branch_languages_witness :
  handle (sample_host (bytes_of ("1" +:+ nl)) []) ["Java"; "SCRIPT"]
    "console.log(1)" (sample_world [] ∅) =
  Returns (Some ("1" +:+ nl +:+ nl)) (sample_world [] ∅).
Proof.
  exact (directive_branch_languages (sample_host (bytes_of ("1" +:+ nl)) [])
           ["Java"; "SCRIPT"] "console.log(1)" (sample_world [] ∅) eq_refl).
Defined.

(* ================================================================== *)
(** ** Forwarding to the REPL, the shell, and failures *)
(* ================================================================== *)

Section Forwarding.

Variable h : host.

Lemma stream_text_of_error_message (text : string) :
  error_styled (stream_text (error_message text)).
Proof.
  unfold stream_text, error_styled.
  destruct (contains "error" (error_message text)).
  - destruct (delete_line_keeps_styling (error_message text)) as [body ->].
    apply trim_keeps_styling.
  - destruct (delete_line_keeps_styling text) as [body ->].
    apply trim_keeps_styling.
Qed.

Lemma metacall_repl_exchange (payload : string) (w : world) (p : repl)
    (ev : read_event) (rest : list read_event) :
  metacall_subprocess w = Some p ->
  stdin_fault p = None ->
  stdout_script p = ev :: rest ->
  metacall_repl payload w =
  match ev with
  | Line reply =>
      Returns reply
        (set_subprocess (after_exchange p (utf8_encode (lstrip payload +:+ nl)) rest) w)
  | ReadError e =>
      Raises e
        (set_subprocess (after_exchange p (utf8_encode (lstrip payload +:+ nl)) rest) w)
  end.
Proof.
  intros Hw Hp Hs.
  unfold metacall_repl, bind, stdin_write, stdin_flush, stdout_readline, bind,
    get_subprocess.
  rewrite Hw, Hp. cbn. rewrite Hs. now destruct ev.
Qed.

Lemma metacall_repl_silence (payload : string) (w : world) (p : repl) :
  metacall_subprocess w = Some p ->
  stdin_fault p = None ->
  stdout_script p = [] ->
  metacall_repl payload w =
  if stdout_eof p
  then Returns []
         (set_subprocess (after_exchange p (utf8_encode (lstrip payload +:+ nl)) []) w)
  else Hangs.
Proof.
  intros Hw Hp Hs.
  unfold metacall_repl, bind, stdin_write, stdin_flush, stdout_readline, bind,
    get_subprocess.
  rewrite Hw, Hp. cbn. rewrite Hs. unfold after_exchange.
  destruct (stdout_eof p) eqn:Heof; reflexivity.
Qed.

(** One line in, one line out.  A payload that is no command, sent to a
    live process that has a line to give: the payload without the white
    space in front of it and with a line feed behind it is written and
    flushed, exactly one line is read, and its text is what is sent. *)
Theorem repl_forward_one_line (code payload text : string) (w : world)
    (p : repl) (reply : bytes) (rest : list read_event) :
  split_magics code = ([], payload) ->
  route [] payload = ReplForward ->
  metacall_subprocess w = Some p ->
  stdin_fault p = None ->
  stdout_script p = Line reply :: rest ->
  utf8_decode reply = Some text ->
  do_execute h code false w =
  Returns (ExecuteReply "ok" (execution_count w))
    (set_iopub (iopub w ++ [stream_text text])
       (set_subprocess
          (after_exchange p (utf8_encode (lstrip payload +:+ nl)) rest) w)).
Proof.
  intros Hsplit Hroute Hw Hp Hs Hdec.
  rewrite (do_execute_handled h code payload text [] w
             (set_subprocess
                (after_exchange p (utf8_encode (lstrip payload +:+ nl)) rest) w)
             Hsplit); [reflexivity |].
  unfold handle, bind. rewrite Hroute.
  rewrite (metacall_repl_exchange payload w p (Line reply) rest Hw Hp Hs).
  unfold byte_to_string, bytes_decode. now rewrite Hdec.
Qed.

(** A process with nothing left to say.  If its output is at end of
    file the read gives [b""] and the empty text is sent as if it were
    the answer; if the pipe is still open the request never comes back. *)
Theorem repl_forward_without_reply (code payload : string) (w : world) (p : repl) :
  split_magics code = ([], payload) ->
  route [] payload = ReplForward ->
  metacall_subprocess w = Some p ->
  stdin_fault p = None ->
  stdout_script p = [] ->
  do_execute h code false w =
  if stdout_eof p
  then Returns (ExecuteReply "ok" (execution_count w))
         (set_iopub (iopub w ++ [EmptyString])
            (set_subprocess
               (after_exchange p (utf8_encode (lstrip payload +:+ nl)) []) w))
  else Hangs.
Proof.
  intros Hsplit Hroute Hw Hp Hs.
  pose proof (metacall_repl_silence payload w p Hw Hp Hs) as Hrepl.
  destruct (stdout_eof p).
  - rewrite (do_execute_handled h code payload EmptyString [] w
               (set_subprocess
                  (after_exchange p (utf8_encode (lstrip payload +:+ nl)) []) w)
               Hsplit); [reflexivity |].
    unfold handle, bind. now rewrite Hroute, Hrepl.
  - unfold do_execute, bind, try_except_Exception. cbn [negb].
    rewrite Hsplit. unfold handle, bind. now rewrite Hroute, Hrepl.
Qed.

(** The process never started: [self.metacall_subprocess] does not
    exist, the [AttributeError] is caught by [do_execute], and its text
    is sent in red; the request still answers [ok]. *)
Theorem repl_forward_unspawned (code payload : string) (w : world) :
  split_magics code = ([], payload) ->
  route [] payload = ReplForward ->
  metacall_subprocess w = None ->
  do_execute h code false w =
  Returns (ExecuteReply "ok" (execution_count w))
    (set_iopub
       (iopub w ++
        [error_message
           "'metacall_jupyter' object has no attribute 'metacall_subprocess'"])
       w).
Proof.
  intros Hsplit Hroute Hw.
  rewrite (do_execute_caught h code payload []
             (AttributeError
                "'metacall_jupyter' object has no attribute 'metacall_subprocess'")
             w w Hsplit); [reflexivity | | reflexivity].
  unfold handle, bind. rewrite Hroute.
  unfold metacall_repl, bind, stdin_write, bind, get_subprocess. now rewrite Hw.
Qed.

(** What becomes of an exception a handler raises.  An [Exception] is
    caught: the request answers [ok] and one message wrapped in the
    error colouring is sent.  An exception outside [Exception], such as
    a [KeyboardInterrupt], leaves [do_execute] and nothing is sent. *)
Theorem handler_exception_policy (code payload : string) (magics : list string)
    (e : exn) (w w' : world) :
  split_magics code = (magics, payload) ->
  handle h magics payload w = Raises e w' ->
  if exn_is_Exception e
  then exists body,
         do_execute h code false w =
         Returns (ExecuteReply "ok" (execution_count w'))
           (set_iopub (iopub w' ++ [error_message body]) w')
  else do_execute h code false w = Raises e w'.
Proof.
  intros Hsplit Hhandle. destruct (exn_is_Exception e) eqn:He.
  - destruct (stream_text_of_error_message (exn_str e)) as [body Hbody].
    exists body. rewrite <- Hbody.
    now apply (do_execute_caught h code payload magics e w w').
  - unfold do_execute, bind, try_except_Exception. cbn [negb].
    now rewrite Hsplit, Hhandle, He.
Qed.

Lemma shell_execute_result (payload text : string) (w w' : world)
    (returncode : Z) (out : bytes) :
  run_shell h (lstrip (drop 1 payload)) w = Returns (returncode, out) w' ->
  utf8_decode out = Some text ->
  shell_execute h payload shcmd w =
  Returns (if Z.eqb returncode 0 then text else error_message text) w'.
Proof.
  intros Hrun Hdec. unfold shell_execute, bind. cbn [String.length shcmd].
  rewrite Hrun. unfold bytes_decode. rewrite Hdec.
  now destruct (Z.eqb returncode 0).
Qed.

(** A payload that begins with [!] is run by the shell without the mark
    and the white space behind it.  The output of a command that exits
    with 0 is the answer as it is; the output of a command that exits
    with anything else is sent wrapped in the error colouring, whether
    or not it holds the word "error". *)
Theorem shell_failure_is_red (code payload text : string) (magics : list string)
    (w w' : world) (returncode : Z) (out : bytes) :
  split_magics code = (magics, payload) ->
  startswith payload shcmd = true ->
  run_shell h (lstrip (drop 1 payload)) w = Returns (returncode, out) w' ->
  utf8_decode out = Some text ->
  handle h magics payload w =
    Returns (Some (if Z.eqb returncode 0 then text else error_message text)) w'
  /\ (returncode = 0%Z ->
      do_execute h code false w =
      Returns (ExecuteReply "ok" (execution_count w'))
        (set_iopub (iopub w' ++ [stream_text text]) w'))
  /\ (returncode <> 0%Z ->
      exists body,
        do_execute h code false w =
        Returns (ExecuteReply "ok" (execution_count w'))
          (set_iopub (iopub w' ++ [error_message body]) w')).
Proof.
  intros Hsplit Hshell Hrun Hdec.
  assert (Hh : handle h magics payload w =
    Returns (Some (if Z.eqb returncode 0 then text else error_message text)) w').
  { unfold handle, bind. rewrite (route_shell magics payload Hshell).
    now rewrite (shell_execute_result payload text w w' returncode out Hrun Hdec). }
  split; [exact Hh |]. split.
  - intros ->. now apply (do_execute_handled h code payload text magics w w').
  - intros Hne. apply Z.eqb_neq in Hne. rewrite Hne in Hh.
    destruct (stream_text_of_error_message text) as [body Hbody].
    exists body. rewrite <- Hbody.
    now apply (do_execute_handled h code payload _ magics w w').
Qed.

(** [$help] sends the help text as it is (the clean-up finds nothing to
    colour, strip or drop in it) and touches neither the process nor the
    files. *)
Theorem help_sends_help_text (code payload : string) (magics : list string)
    (w : world) :
  split_magics code = (magics, payload) ->
  startswith payload help_command = true ->
  do_execute h code false w =
  Returns (ExecuteReply "ok" (execution_count w))
    (set_iopub (iopub w ++ [help_text]) w).
Proof.
  intros Hsplit Hhelp.
  rewrite (do_execute_handled h code payload help_text magics w w Hsplit).
  - assert (Hst : stream_text help_text = help_text) by (vm_compute; reflexivity).
    now rewrite Hst.
  - unfold handle. now rewrite (route_help magics payload Hhelp).
Qed.

End Forwarding.

Lemma repl_forward_one_line_witness :
  do_execute (sample_host [] []) "  1 + 1" false (sample_world ["2" +:+ nl] ∅) =
  Returns (ExecuteReply "ok" 0)
    (set_iopub ["2"]
       (set_subprocess (Repl None [] (bytes_of ("1 + 1" +:+ nl)) [] false)
          (sample_world ["2" +:+ nl] ∅))).
Proof.
  exact (repl_forward_one_line (sample_host [] []) "  1 + 1" "  1 + 1" ("2" +:+ nl)
           (sample_world ["2" +:+ nl] ∅) (sample_repl ["2" +:+ nl])
           (bytes_of ("2" +:+ nl)) []
           eq_refl eq_refl eq_refl eq_refl eq_refl eq_refl).
Defined.

Lemma repl_forward_without_reply_witness :
  do_execute (sample_host [] []) "1 + 1" false (sample_world [] ∅) = Hangs.
Proof.
  exact (repl_forward_without_reply (sample_host [] []) "1 + 1" "1 + 1"
           (sample_world [] ∅) (sample_repl [])
           eq_refl eq_refl eq_refl eq_refl eq_refl).
Defined.

Lemma repl_forward_unspawned_witness :
  do_execute (sample_host [] []) "1 + 1" false (World None ∅ (fun _ => None) [] 0) =
  Returns (ExecuteReply "ok" 0)
    (set_iopub
       [error_message
          "'metacall_jupyter' object has no attribute 'metacall_subprocess'"]
       (World None ∅ (fun _ => None) [] 0)).
Proof.
  exact (repl_forward_unspawned (sample_host [] []) "1 + 1" "1 + 1"
           (World None ∅ (fun _ => None) [] 0) eq_refl eq_refl eq_refl).
Defined.

Lemma handler_exception_policy_witness :
  exists body,
    do_execute (sample_host [] []) "$newfile " false (sample_world [] ∅) =
    Returns (ExecuteReply "ok" 0)
      (set_iopub [error_message body] (sample_world [] ∅)).
Proof.
  exact (handler_exception_policy (sample_host [] []) "$newfile " "$newfile " []
           (FileNotFoundError "[Errno 2] No such file or directory: ''")
           (sample_world [] ∅) (sample_world [] ∅) eq_refl eq_refl).
Defined.

Lemma help_sends_help_text_witness :
  do_execute (sample_host [] []) (">python" +:+ nl +:+ "$help me") false
    (sample_world [] ∅) =
  Returns (ExecuteReply "ok" 0) (set_iopub [help_text] (sample_world [] ∅)).
Proof.
  exact (help_sends_help_text (sample_host [] []) (">python" +:+ nl +:+ "$help me")
           "$help me" ["python"] (sample_world [] ∅) eq_refl eq_refl).
Defined.

(* ================================================================== *)
(** ** More on [$newfile], [%load] and [%inspect] *)
(* ================================================================== *)

Section FilesAndProcess.

Variable h : host.

Lemma split_nl_once_two (s : string) :
  exists first rest, split_nl_once (s +:+ nl) = [first; rest].
Proof.
  induction s as [|c s (first & rest & IH)].
  - now exists EmptyString, EmptyString.
  - change (String c s +:+ nl) with (String c (s +:+ nl)).
    cbn [split_nl_once]. destruct (Ascii.eqb c LF).
    + now exists EmptyString, (s +:+ nl).
    + rewrite IH. now exists (String c first), rest.
Qed.

Lemma lstrip_chars_head (chars s : string) (c : ascii) (r : string) :
  lstrip_chars chars s = String c r -> ascii_in c chars = false.
Proof.
  induction s as [|x s IH]; [discriminate |].
  cbn [lstrip_chars]. destruct (ascii_in x chars) eqn:Hx; [exact IH |].
  now intros [= <- _].
Qed.

(** What a [$newfile] that comes back has done.  It wrote one file,
    whose name is not empty and begins with none of the characters of
    [$newfile ]; that file holds what it held before followed by the new
    text, every other file is as it was, so no content is ever lost; the
    answer names the file written; the process and the messages sent
    are untouched. *)
Theorem newfile_never_truncates (code msg : string) (w w' : world) :
  newfile_magic code w = Returns msg w' ->
  exists (c : ascii) (name' payload : string),
    let name := String c name' in
    ascii_in c "$newfile " = false
    /\ msg = "File " +:+ name +:+ " is saved."
    /\ files w' =
       <[name := default [] (files w !! name) ++ utf8_encode payload]> (files w)
    /\ (forall path content,
          files w !! path = Some content ->
          exists more, files w' !! path = Some (content ++ more))
    /\ metacall_subprocess w' = metacall_subprocess w
    /\ iopub w' = iopub w.
Proof.
  unfold newfile_magic.
  destruct (split_nl_once_two code) as (first & payload & ->).
  set (name := lstrip_chars "$newfile " (hd EmptyString (split nl (code +:+ nl)))).
  assert (Hhead : forall c r, name = String c r -> ascii_in c "$newfile " = false).
  { intros c r. apply lstrip_chars_head. }
  clearbody name. unfold bind, append_to_file.
  destruct name as [|c name']; [discriminate |].
  cbn [String.eqb].
  destruct (open_fault w (String c name')); [discriminate |].
  intros [= <- <-]. exists c, name', payload. cbv zeta.
  split; [now apply (Hhead c name') |].
  split; [reflexivity |]. split; [reflexivity |].
  split; [| split; reflexivity].
  intros path content Hpath. cbn [files set_files].
  destruct (decide (String c name' = path)) as [<- | Hne].
  - rewrite lookup_insert_eq, Hpath. now exists (utf8_encode payload).
  - rewrite lookup_insert_ne by exact Hne. exists []. now rewrite app_nil_r.
Qed.

Lemma load_exchange_reply (code : string) (w : world) (p : repl)
    (reply : bytes) (rest : list read_event) :
  metacall_subprocess w = Some p -> stdin_fault p = None ->
  stdout_script p = Line reply :: rest ->
  load_exchange code w =
  Returns "The file has been successfully loaded"
    (set_subprocess (after_exchange p (utf8_encode (lstrip code +:+ nl)) rest) w).
Proof.
  intros Hw Hp Hs.
  unfold load_exchange, bind, stdin_write, stdin_flush, stdout_readline, bind,
    get_subprocess.
  rewrite Hw, Hp. cbn. now rewrite Hs.
Qed.

Lemma load_exchange_silence (code : string) (w : world) (p : repl) :
  metacall_subprocess w = Some p -> stdin_fault p = None ->
  stdout_script p = [] ->
  load_exchange code w =
  if stdout_eof p
  then Returns "The file has been successfully loaded"
         (set_subprocess (after_exchange p (utf8_encode (lstrip code +:+ nl)) []) w)
  else Hangs.
Proof.
  intros Hw Hp Hs.
  unfold load_exchange, bind, stdin_write, stdin_flush, stdout_readline, bind,
    get_subprocess.
  rewrite Hw, Hp. cbn. rewrite Hs. unfold after_exchange.
  destruct (stdout_eof p); reflexivity.
Qed.

(** [%load] with a live process writes the request, reads one line and
    reports success whatever that line says: the reply is dropped.  It
    reports success too when the process has closed its output, and
    never comes back while the pipe is open and silent. *)
Theorem load_ignores_the_reply (code : string) (w : world) (p : repl) :
  metacall_subprocess w = Some p ->
  stdin_fault p = None ->
  (forall reply rest,
     stdout_script p = Line reply :: rest ->
     metacall_load code w =
     Returns "The file has been successfully loaded"
       (set_subprocess
          (after_exchange p (utf8_encode (lstrip code +:+ nl)) rest) w))
  /\ (stdout_script p = [] ->
      metacall_load code w =
      if stdout_eof p
      then Returns "The file has been successfully loaded"
             (set_subprocess
                (after_exchange p (utf8_encode (lstrip code +:+ nl)) []) w)
      else Hangs).
Proof.
  intros Hw Hp. split.
  - intros reply rest Hs. unfold metacall_load, try_except.
    now rewrite (load_exchange_reply code w p reply rest Hw Hp Hs).
  - intros Hs. unfold metacall_load, try_except.
    rewrite (load_exchange_silence code w p Hw Hp Hs).
    now destruct (stdout_eof p).
Qed.

Lemma inspect_loop_silence (turns : nat) :
  forall (acc : string) (w : world) (p : repl),
    metacall_subprocess w = Some p ->
    stdout_script p = [] ->
    inspect_loop turns acc w = Hangs.
Proof.
  induction turns as [|turns IH]; intros acc w p Hw Hs; [reflexivity |].
  cbn [inspect_loop]. unfold bind at 1. unfold stdout_readline, bind, get_subprocess.
  rewrite Hw, Hs. destruct (stdout_eof p); [| reflexivity].
  unfold ret, bind, bytes_decode. cbn. unfold ret.
  now apply (IH _ w p).
Qed.

Lemma inspect_loop_no_blank_line (script : list read_event) :
  forall (turns : nat) (acc : string) (w : world) (p : repl),
    metacall_subprocess w = Some p ->
    stdout_script p = script ->
    forallb keeps_inspecting script = true ->
    inspect_loop turns acc w = Hangs.
Proof.
  induction script as [|ev script IH]; intros turns acc w p Hw Hs Hall.
  - now apply (inspect_loop_silence turns acc w p).
  - cbn [forallb] in Hall. apply andb_true_iff in Hall as [Hev Hall].
    destruct turns as [|turns]; [reflexivity |].
    destruct ev as [b | e]; [| discriminate]. cbn [keeps_inspecting] in Hev.
    destruct (utf8_decode b) as [text |] eqn:Hdec; [| discriminate].
    apply negb_true_iff in Hev.
    cbn [inspect_loop]. unfold bind at 1. unfold stdout_readline, bind, get_subprocess.
    rewrite Hw, Hs. unfold bytes_decode. rewrite Hdec. unfold ret. rewrite Hev.
    set (p1 := Repl (stdin_fault p) (stdin_buffer p) (stdin_sent p) script
                 (stdout_eof p)).
    now apply (IH turns _ (set_subprocess p1 w) p1).
Qed.

(** [%inspect] waits for a line that is a lone line feed.  When the
    process answers with other lines only and then falls silent, or
    closes its output, the loop never ends: the request never comes
    back whether or not the pipe is at end of file. *)
Theorem inspect_without_blank_line_hangs (code payload : string)
    (magics : list string) (w : world) (p : repl) :
  split_magics code = (magics, payload) ->
  startswith payload inspect_command = true ->
  metacall_subprocess w = Some p ->
  stdin_fault p = None ->
  forallb keeps_inspecting (stdout_script p) = true ->
  metacall_inspect h w = Hangs
  /\ do_execute h code false w = Hangs.
Proof.
  intros Hsplit Hpay Hw Hp Hall.
  assert (Hin : metacall_inspect h w = Hangs).
  { unfold metacall_inspect, bind, stdin_write, stdin_flush, bind, get_subprocess.
    rewrite Hw, Hp. cbn [metacall_subprocess set_subprocess stdin_fault
                          stdin_buffer stdin_sent stdout_script stdout_eof].
    set (p2 := Repl None [] _ (stdout_script p) (stdout_eof p)).
    rewrite set_subprocess_twice.
    now rewrite (inspect_loop_no_blank_line (stdout_script p) _ EmptyString
                   (set_subprocess p2 w) p2 eq_refl eq_refl Hall). }
  split; [exact Hin |].
  unfold do_execute, bind, try_except_Exception. cbn [negb].
  rewrite Hsplit. unfold handle, bind.
  now rewrite (route_inspect magics payload Hpay), Hin.
Qed.

End FilesAndProcess.

Lemma newfile_never_truncates_witness :
  exists (c : ascii) (name' payload : string),
    ascii_in c "$newfile " = false
    /\ "File otes.txt is saved." = "File " +:+ String c name' +:+ " is saved.".
Proof.
  destruct (newfile_never_truncates "$newfile notes.txt" "File otes.txt is saved."
              (sample_world [] ∅)
              (set_files (<["otes.txt" := []]> ∅) (sample_world [] ∅)) eq_refl)
    as (c & name' & payload & Hc & Hmsg & _).
  exists c, name', payload. split; [exact Hc | exact Hmsg].
Defined.

Lemma load_ignores_the_reply_witness :
  metacall_load "%load py missing.py"
    (sample_world ["error: file not found" +:+ nl] ∅) =
  Returns "The file has been successfully loaded"
    (set_subprocess
       (Repl None [] (bytes_of ("%load py missing.py" +:+ nl)) [] false)
       (sample_world ["error: file not found" +:+ nl] ∅)).
Proof.
  exact (proj1 (load_ignores_the_reply "%load py missing.py"
                  (sample_world ["error: file not found" +:+ nl] ∅)
                  (sample_repl ["error: file not found" +:+ nl]) eq_refl eq_refl)
           (bytes_of ("error: file not found" +:+ nl)) [] eq_refl).
Defined.

Lemma inspect_without_blank_line_hangs_witness :
  do_execute (sample_host [] []) "%inspect" false
    (sample_world [inspect_line_1; inspect_line_2] ∅) = Hangs.
Proof.
  exact (proj2 (inspect_without_blank_line_hangs (sample_host [] []) "%inspect"
                  "%inspect" [] (sample_world [inspect_line_1; inspect_line_2] ∅)
                  (sample_repl [inspect_line_1; inspect_line_2])
                  eq_refl eq_refl eq_refl eq_refl eq_refl)).
Defined.

(* ================================================================== *)
(** ** The captured output of a script, and the lines that are sent *)
(* ================================================================== *)

Section CapturedOutput.

Variable h : host.

Lemma substring_0_take (m : nat) (s : string) : String.substring 0 m s = str_take m s.
Proof.
  revert s. induction m as [|m IH]; intros s; [now destruct s |].
  destruct s as [|c s]; [reflexivity |]. cbn [String.substring str_take]. now rewrite IH.
Qed.

Lemma str_take_app_le (n : nat) (s t : string) :
  n <= String.length s -> str_take n (s +:+ t) = str_take n s.
Proof.
  revert s. induction n as [|n IH]; intros s Hn; [now destruct s, t |].
  destruct s as [|c s]; [simpl in Hn; lia |].
  change (String c s +:+ t) with (String c (s +:+ t)). cbn [str_take].
  rewrite IH; [reflexivity | simpl in Hn; lia].
Qed.

Lemma str_take_app_ge (k : nat) (s t : string) :
  str_take (String.length s + k) (s +:+ t) = s +:+ str_take k t.
Proof.
  induction s as [|c s IH]; [reflexivity |].
  change (String c s +:+ t) with (String c (s +:+ t)).
  cbn [String.length Nat.add str_take]. now rewrite IH.
Qed.

Lemma str_take_all (s : string) : str_take (String.length s) s = s.
Proof. induction s as [|c s IH]; [reflexivity |]. cbn. now rewrite IH. Qed.

Lemma repr_bytes_eq (b : bytes) :
  repr_bytes b =
  String "b" (String (repr_quote b) (escaped b +:+ String (repr_quote b) EmptyString)).
Proof. reflexivity. Qed.

Lemma split_from_not_nil (sep s : string) (skip : nat) : split_from sep skip s <> [].
Proof.
  revert skip. induction s as [|c s IH]; intros skip; [discriminate |].
  cbn [split_from]. destruct skip as [|k]; [| apply IH].
  destruct (String.prefix sep (String c s)); [discriminate |].
  destruct (split_from sep 0 s); discriminate.
Qed.

Lemma fold_left_lines (ls : list string) (acc : string) :
  ls <> [] ->
  fold_left (fun acc item => acc +:+ item +:+ nl) ls acc =
  acc +:+ join nl ls +:+ nl.
Proof.
  revert acc. induction ls as [|x ls IH]; intros acc Hne; [congruence |].
  destruct ls as [|y ls]; [reflexivity |].
  cbn [fold_left] in IH |- *. rewrite IH by discriminate.
  rewrite join_cons_cons. now rewrite !str_append_assoc.
Qed.

(** The text [metacall_execute] keeps of the two streams. *)
Lemma slice_of_streams (out err : bytes) :
  slice_2_m5 (repr_bytes out +:+ nl +:+ repr_bytes err) =
  str_take (String.length (escaped out) + String.length (escaped err))
    (escaped out +:+
     String (repr_quote out) (String LF (String "b" (String (repr_quote err)
       (escaped err))))).
Proof.
  unfold slice_2_m5. rewrite !repr_bytes_eq.
  set (x1 := escaped out). set (x2 := escaped err).
  set (q1 := repr_quote out). set (q2 := repr_quote err).
  change (String "b" (String q1 (x1 +:+ String q1 EmptyString)) +:+ nl
          +:+ String "b" (String q2 (x2 +:+ String q2 EmptyString)))
    with (String "b" (String q1 ((x1 +:+ String q1 EmptyString) +:+ nl
          +:+ String "b" (String q2 (x2 +:+ String q2 EmptyString))))).
  rewrite (str_append_assoc x1).
  change (String q1 EmptyString +:+ nl
          +:+ String "b" (String q2 (x2 +:+ String q2 EmptyString)))
    with (String q1 (String LF (String "b" (String q2 x2))) +:+ String q2 EmptyString).
  cbn [String.length]. rewrite !str_length_append. cbn [String.length].
  replace (S (S (String.length x1 + (S (S (S (S (String.length x2)))) + 1))) - 5 - 2)
    with (String.length x1 + String.length x2) by lia.
  cbn [String.substring]. rewrite substring_0_take.
  rewrite <- str_append_assoc, str_take_app_le; [reflexivity |].
  rewrite str_length_append. cbn [String.length]. lia.
Qed.

(** The captured output of a script run.  Of the text [repr] makes of
    the standard output, a quote, a line feed, [b], a quote, and the
    text [repr] makes of the standard error, the slice [[2:-5]] keeps as
    many characters as the two escaped streams hold together.  So with
    nothing on the standard error the escaped standard output comes
    through whole, and with four characters or more on it the separator
    stays in and the last four characters are cut off.  Every escaped
    line feed then becomes a real one and one more is put at the end. *)
Theorem metacall_execute_slice (code extension : string) (out err : bytes)
    (w w' : world) :
  run_metacall h (utf8_encode code) extension w = Returns (out, err) w' ->
  let separator rest :=
    String (repr_quote out) (String LF (String "b" (String (repr_quote err) rest))) in
  let kept :=
    str_take (String.length (escaped out) + String.length (escaped err))
      (escaped out +:+ separator (escaped err)) in
  metacall_execute h code extension w =
    Returns (join nl (split "\n" kept) +:+ nl) w'
  /\ (err = [] -> kept = escaped out)
  /\ (4 <= String.length (escaped err) ->
      kept = escaped out +:+
             separator (str_take (String.length (escaped err) - 4) (escaped err))).
Proof.
  intros Hrun separator kept. split; [| split].
  - rewrite (metacall_execute_streams h code extension out err w w' Hrun).
    rewrite slice_of_streams. fold (separator (escaped err)). fold kept.
    rewrite fold_left_lines by apply split_from_not_nil. reflexivity.
  - intros ->. unfold kept. cbn [escaped map String.concat String.length].
    rewrite Nat.add_0_r, str_take_app_le by lia. apply str_take_all.
  - intros Hlen. unfold kept. rewrite str_take_app_ge. f_equal.
    destruct (String.length (escaped err)) as [|[|[|[|n]]]] eqn:Hn; try lia.
    unfold separator. cbn [str_take]. do 4 f_equal. f_equal. lia.
Qed.

Lemma splitlines_cons_plain (c : ascii) (s : string) :
  is_linebreak c = false ->
  splitlines (String c s) =
  match splitlines s with
  | l :: ls => String c l :: ls
  | [] => [String c EmptyString]
  end.
Proof. intros Hc. cbn [splitlines]. now rewrite Hc. Qed.

Lemma splitlines_bounded (n : nat) (s : string) :
  String.length s <= n ->
  Forall (fun l => forallb (fun c => negb (is_linebreak c))
                     (list_ascii_of_string l) = true) (splitlines s).
Proof.
  revert s. induction n as [|n IH]; intros s Hn.
  - destruct s; [constructor | simpl in Hn; lia].
  - destruct s as [|c s]; [constructor |]. simpl in Hn.
    cbn [splitlines]. destruct (is_linebreak c) eqn:Hc.
    + constructor; [reflexivity |].
      destruct s as [|d s]; [constructor |]. simpl in Hn.
      destruct (Ascii.eqb c CR && Ascii.eqb d LF).
      * apply IH. lia.
      * apply IH. simpl. lia.
    + pose proof (IH s ltac:(lia)) as Hs.
      destruct (splitlines s) as [|l ls].
      * repeat constructor. cbn. now rewrite Hc.
      * inversion Hs as [|? ? Hl Hls]; subst. constructor; [| exact Hls].
        cbn [list_ascii_of_string forallb]. now rewrite Hc, Hl.
Qed.

Lemma splitlines_plain_prefix (l v : string) :
  forallb (fun c => negb (is_linebreak c)) (list_ascii_of_string l) = true ->
  splitlines (l +:+ v) =
  match splitlines v with
  | x :: xs => (l +:+ x) :: xs
  | [] => match l with EmptyString => [] | _ => [l] end
  end.
Proof.
  induction l as [|c l IH]; intros Hl.
  - change (EmptyString +:+ v) with v. now destruct (splitlines v).
  - cbn [list_ascii_of_string forallb] in Hl. apply andb_true_iff in Hl as [Hc Hl].
    apply negb_true_iff in Hc.
    change (String c l +:+ v) with (String c (l +:+ v)).
    rewrite (splitlines_cons_plain c _ Hc), (IH Hl).
    destruct (splitlines v) as [|x xs]; [now destruct l | reflexivity].
Qed.

Lemma splitlines_line_feed (v : string) :
  splitlines (String LF v) = EmptyString :: splitlines v.
Proof. now destruct v. Qed.

Lemma splitlines_join_kept (ls : list string) :
  Forall (fun l => kept_line l = true) ls ->
  splitlines (join nl ls) = ls.
Proof.
  induction ls as [|l ls IH]; intros Hall; [reflexivity |].
  inversion Hall as [|? ? Hl Hls]; subst.
  unfold kept_line in Hl. apply andb_true_iff in Hl as [Hne Hplain].
  destruct ls as [|l' ls].
  - change (join nl [l]) with l. rewrite <- (str_append_empty_r l) at 1.
    rewrite (splitlines_plain_prefix l EmptyString Hplain). cbn [splitlines].
    destruct l; [discriminate | reflexivity].
  - rewrite join_cons_cons, (splitlines_plain_prefix l _ Hplain).
    change (nl +:+ join nl (l' :: ls)) with (String LF (join nl (l' :: ls))).
    rewrite splitlines_line_feed, (IH Hls). now rewrite str_append_empty_r.
Qed.

Lemma kept_lines_of (text : string) :
  Forall (fun l => kept_line l = true)
    (List.filter (fun s => negb (String.eqb s EmptyString)) (splitlines text)).
Proof.
  pose proof (splitlines_bounded (String.length text) text (le_n _)) as Hall.
  induction Hall as [|l ls Hl Hls IH]; [constructor |].
  cbn [List.filter]. destruct (negb (String.eqb l EmptyString)) eqn:Hne; [| exact IH].
  constructor; [| exact IH]. unfold kept_line. now rewrite Hne, Hl.
Qed.

Lemma filter_kept (ls : list string) :
  Forall (fun l => kept_line l = true) ls ->
  List.filter (fun s => negb (String.eqb s EmptyString)) ls = ls.
Proof.
  induction 1 as [|l ls Hl Hls IH]; [reflexivity |].
  cbn [List.filter]. unfold kept_line in Hl. apply andb_true_iff in Hl as [-> _].
  now rewrite IH.
Qed.

(** What [trim_empty_lines] returns has no empty line and no line
    boundary but the line feeds between its lines: split again it gives
    back the lines that were kept, and trimming it again changes
    nothing.  So no text that is sent holds an empty line. *)
Theorem trim_empty_lines_idempotent (text : string) :
  splitlines (trim_empty_lines text) =
    List.filter (fun s => negb (String.eqb s EmptyString)) (splitlines text)
  /\ Forall (fun l => kept_line l = true) (splitlines (trim_empty_lines text))
  /\ trim_empty_lines (trim_empty_lines text) = trim_empty_lines text
  /\ Forall (fun l => kept_line l = true) (splitlines (stream_text text)).
Proof.
  assert (Hsplit : forall t, splitlines (trim_empty_lines t) =
            List.filter (fun s => negb (String.eqb s EmptyString)) (splitlines t)).
  { intros t. unfold trim_empty_lines, linesep.
    apply splitlines_join_kept, kept_lines_of. }
  split; [apply Hsplit |]. split; [rewrite Hsplit; apply kept_lines_of |].
  split.
  - unfold trim_empty_lines at 1. fold (trim_empty_lines text) . rewrite Hsplit.
    rewrite (filter_kept _ (kept_lines_of text)). reflexivity.
  - unfold stream_text. rewrite Hsplit. apply kept_lines_of.
Qed.

End CapturedOutput.

Lemma metacall_execute_slice_witness :
  metacall_execute (sample_host (bytes_of ("1" +:+ nl +:+ "2" +:+ nl)) [])
    "print(1); print(2)" ".py" (sample_world [] ∅) =
  Returns ("1" +:+ nl +:+ "2" +:+ nl +:+ nl) (sample_world [] ∅).
Proof.
  exact (proj1 (metacall_execute_slice
                  (sample_host (bytes_of ("1" +:+ nl +:+ "2" +:+ nl)) [])
                  "print(1); print(2)" ".py" (bytes_of ("1" +:+ nl +:+ "2" +:+ nl)) []
                  (sample_world [] ∅) (sample_world [] ∅) eq_refl)).
Defined.

(* ================================================================== *)
(** ** Start-up, and the encoding on the pipes *)
(* ================================================================== *)

Section StartUp.

Variable h : host.

Lemma utf8_decode_char (c : ascii) (rest : bytes) :
  utf8_decode (utf8_char c ++ rest) = String c <$> utf8_decode rest.
Proof.
  destruct c as [[] [] [] [] [] [] [] []]; reflexivity.
Qed.

Lemma utf8_decode_encode (s : string) : utf8_decode (utf8_encode s) = Some s.
Proof.
  unfold utf8_encode. induction s as [|c s IH]; [reflexivity |].
  cbn [list_ascii_of_string flat_map]. now rewrite utf8_decode_char, IH.
Qed.

(** What the kernel encodes for a pipe or a file decodes back to the
    same text: a process that echoes the request line makes
    [byte_to_string] return the payload as it was sent. *)
Theorem byte_to_string_of_encoded (s : string) (w : world) :
  byte_to_string (utf8_encode s) w = Returns s w.
Proof.
  unfold byte_to_string, bytes_decode. now rewrite utf8_decode_encode.
Qed.

Lemma start_metacall_greeting (popen : M repl) (w w0 : world) (p : repl)
    (greeting : bytes) (rest : list read_event) :
  popen w = Returns p w0 ->
  stdout_script p = Line greeting :: rest ->
  _start_metacall popen w =
  Returns tt
    (set_subprocess
       (Repl (stdin_fault p) (stdin_buffer p) (stdin_sent p) rest (stdout_eof p))
       w0).
Proof.
  intros Hpopen Hs.
  unfold _start_metacall, try_except_Exception, bind, stdout_readline, bind,
    get_subprocess.
  rewrite Hpopen. cbn. now rewrite Hs.
Qed.

(** Start-up reads exactly one line of the new process and drops it, so
    the first request that is forwarded is answered by the line after
    the greeting. *)
Theorem start_then_forward (popen : M repl) (code payload text : string)
    (w w0 : world) (p : repl) (greeting reply : bytes) (rest : list read_event) :
  popen w = Returns p w0 ->
  stdin_fault p = None ->
  stdout_script p = Line greeting :: Line reply :: rest ->
  utf8_decode reply = Some text ->
  split_magics code = ([], payload) ->
  route [] payload = ReplForward ->
  (do! _start_metacall popen in do_execute h code false) w =
  Returns (ExecuteReply "ok" (execution_count w0))
    (set_iopub (iopub w0 ++ [stream_text text])
       (set_subprocess
          (after_exchange p (utf8_encode (lstrip payload +:+ nl)) rest) w0)).
Proof.
  intros Hpopen Hp Hs Hdec Hsplit Hroute. unfold bind at 1.
  rewrite (start_metacall_greeting popen w w0 p greeting _ Hpopen Hs).
  set (p1 := Repl (stdin_fault p) (stdin_buffer p) (stdin_sent p)
               (Line reply :: rest) (stdout_eof p)).
  rewrite (do_execute_handled h code payload text [] (set_subprocess p1 w0)
             (set_subprocess
                (after_exchange p1 (utf8_encode (lstrip payload +:+ nl)) rest)
                (set_subprocess p1 w0))
             Hsplit); [reflexivity |].
  unfold handle, bind. rewrite Hroute.
  rewrite (metacall_repl_exchange payload (set_subprocess p1 w0) p1 (Line reply)
             rest eq_refl Hp eq_refl).
  unfold byte_to_string, bytes_decode. now rewrite Hdec.
Qed.

(** A process that cannot be started does not stop the kernel: the
    [Exception] is swallowed, the attribute stays unset, and the first
    forwarded request is answered with the red text of the
    [AttributeError]. *)
Theorem start_failure_then_forward (popen : M repl) (code payload : string)
    (w : world) (e : exn) :
  popen w = Raises e w ->
  exn_is_Exception e = true ->
  metacall_subprocess w = None ->
  split_magics code = ([], payload) ->
  route [] payload = ReplForward ->
  _start_metacall popen w = Returns tt w
  /\ (do! _start_metacall popen in do_execute h code false) w =
     Returns (ExecuteReply "ok" (execution_count w))
       (set_iopub
          (iopub w ++
           [error_message
              "'metacall_jupyter' object has no attribute 'metacall_subprocess'"])
          w).
Proof.
  intros Hpopen He Hw Hsplit Hroute.
  assert (Hstart : _start_metacall popen w = Returns tt w).
  { unfold _start_metacall, try_except_Exception, bind. now rewrite Hpopen, He. }
  split; [exact Hstart |]. unfold bind at 1. rewrite Hstart.
  rewrite (do_execute_caught h code payload []
             (AttributeError
                "'metacall_jupyter' object has no attribute 'metacall_subprocess'")
             w w Hsplit); [reflexivity | | reflexivity].
  unfold handle, bind. rewrite Hroute.
  unfold metacall_repl, bind, stdin_write, bind, get_subprocess. now rewrite Hw.
Qed.

End StartUp.

Lemma start_then_forward_witness :
  (do! _start_metacall (ret (sample_repl ["Welcome" +:+ nl; "2" +:+ nl])) in
   do_execute (sample_host [] []) "1 + 1" false)
    (World None ∅ (fun _ => None) [] 0) =
  Returns (ExecuteReply "ok" 0)
    (set_iopub ["2"]
       (set_subprocess (Repl None [] (bytes_of ("1 + 1" +:+ nl)) [] false)
          (World None ∅ (fun _ => None) [] 0))).
Proof.
  exact (start_then_forward (sample_host [] [])
           (ret (sample_repl ["Welcome" +:+ nl; "2" +:+ nl])) "1 + 1" "1 + 1"
           ("2" +:+ nl) (World None ∅ (fun _ => None) [] 0)
           (World None ∅ (fun _ => None) [] 0)
           (sample_repl ["Welcome" +:+ nl; "2" +:+ nl])
           (bytes_of ("Welcome" +:+ nl)) (bytes_of ("2" +:+ nl)) []
           eq_refl eq_refl eq_refl eq_refl eq_refl eq_refl).
Defined.

Lemma start_failure_then_forward_witness :
  _start_metacall (raise (FileNotFoundError "[Errno 2] No such file: 'metacall'"))
    (World None ∅ (fun _ => None) [] 0) =
  Returns tt (World None ∅ (fun _ => None) [] 0).
Proof.
  exact (proj1 (start_failure_then_forward (sample_host [] [])
                  (raise (FileNotFoundError "[Errno 2] No such file: 'metacall'"))
                  "1 + 1" "1 + 1" (World None ∅ (fun _ => None) [] 0)
                  (FileNotFoundError "[Errno 2] No such file: 'metacall'")
                  eq_refl eq_refl eq_refl eq_refl eq_refl)).
Defined.

(* ================================================================== *)
(** ** Plain script output, and the load notice *)
(* ================================================================== *)

Section PlainOutput.

Variable h : host.

Lemma repr_quote_plain (out : bytes) :
  forallb plain_or_lf out = true -> repr_quote out = "'"%char.
Proof.
  intros Hall. unfold repr_quote.
  assert (Hq : existsb (fun x => byte_code x =? 39) out = false).
  { induction out as [|b out IH]; [reflexivity |].
    cbn [forallb existsb] in Hall |- *. apply andb_true_iff in Hall as [Hb Hall].
    rewrite (IH Hall), orb_false_r. unfold plain_or_lf in Hb.
    destruct (byte_code b =? 39) eqn:H39; [| reflexivity].
    apply Nat.eqb_eq in H39. rewrite H39 in Hb. discriminate. }
  now rewrite Hq.
Qed.

Lemma repr_byte_plain (b : byte) :
  plain_or_lf b = true ->
  repr_byte "'" b =
  if byte_code b =? 10 then "\n" else String (ascii_of_byte b) EmptyString.
Proof.
  destruct b; intros Hb; try discriminate Hb; reflexivity.
Qed.

Lemma plain_not_backslash (b : byte) :
  plain_or_lf b = true -> (byte_code b =? 10) = false ->
  Ascii.eqb "\" (ascii_of_byte b) = false /\ Ascii.eqb (ascii_of_byte b) LF = false.
Proof.
  destruct b; intros Hb Hlf; try discriminate Hb; try discriminate Hlf;
    split; reflexivity.
Qed.

Lemma byte_lf (b : byte) : (byte_code b =? 10) = true -> ascii_of_byte b = LF.
Proof. destruct b; intros Hb; try discriminate Hb; reflexivity. Qed.

(** Splitting the escaped output at the escaped line feeds gives the
    lines of the output. *)
Lemma split_escaped_plain (q : ascii) (out : bytes) :
  q = "'"%char ->
  forallb plain_or_lf out = true ->
  split "\n" (String.concat EmptyString (map (repr_byte q) out)) =
  split nl (string_of_list_byte out).
Proof.
  intros -> Hall. induction out as [|b out IH]; [reflexivity |].
  cbn [forallb] in Hall. apply andb_true_iff in Hall as [Hb Hall].
  specialize (IH Hall).
  assert (Hcat : String.concat EmptyString (map (repr_byte "'") (b :: out)) =
                 repr_byte "'" b +:+ String.concat EmptyString (map (repr_byte "'") out)).
  { cbn [map]. destruct out as [|b' out]; [| reflexivity].
    cbn. now rewrite str_append_empty_r. }
  rewrite Hcat, (repr_byte_plain b Hb).
  change (string_of_list_byte (b :: out))
    with (String (ascii_of_byte b) (string_of_list_byte out)).
  rewrite split_nl_cons.
  destruct (byte_code b =? 10) eqn:Hlf.
  - rewrite (byte_lf b Hlf). cbn [Ascii.eqb].
    change (Ascii.eqb LF LF) with true. cbn iota.
    unfold split in IH |- *.
    change ("\n" +:+ String.concat EmptyString (map (repr_byte "'") out))
      with (String "\" (String "n"
              (String.concat EmptyString (map (repr_byte "'") out)))).
    cbn [split_from]. rewrite !str_prefix_cons, str_prefix_nil_l.
    cbn. now rewrite IH.
  - destruct (plain_not_backslash b Hb Hlf) as [Hbs Hnl]. rewrite Hnl.
    unfold split in IH |- *.
    change (String (ascii_of_byte b) EmptyString
            +:+ String.concat EmptyString (map (repr_byte "'") out))
      with (String (ascii_of_byte b)
              (String.concat EmptyString (map (repr_byte "'") out))).
    cbn [split_from]. rewrite str_prefix_cons, Hbs. cbn [andb]. now rewrite IH.
Qed.

(** A script that prints plain text.  When the standard output holds
    printable ASCII (the single quote and the backslash apart) and line
    feeds only, and the standard error nothing, the captured output is
    the text that was printed with one line feed behind it. *)
Theorem metacall_execute_plain (code extension : string) (out : bytes)
    (w w' : world) :
  run_metacall h (utf8_encode code) extension w = Returns (out, []) w' ->
  forallb plain_or_lf out = true ->
  metacall_execute h code extension w =
  Returns (string_of_list_byte out +:+ nl) w'.
Proof.
  intros Hrun Hplain.
  rewrite (metacall_execute_streams h code extension out [] w w' Hrun).
  rewrite slice_of_streams. cbn [escaped map String.concat String.length].
  rewrite Nat.add_0_r, str_take_app_le by lia. rewrite str_take_all.
  rewrite fold_left_lines by apply split_from_not_nil.
  unfold escaped.
  rewrite (split_escaped_plain _ out (repr_quote_plain out Hplain) Hplain).
  now rewrite join_split_nl.
Qed.

Lemma script_loaded_sub_skip (a b : string) :
  script_loaded_sub (String.length a) (a +:+ b) = script_loaded_sub 0 b.
Proof.
  induction a as [|c a IH]; [reflexivity |].
  change (String c a +:+ b) with (String c (a +:+ b)). cbn [String.length].
  destruct a as [|c' a]; [now destruct b |].
  cbn [script_loaded_sub]. exact IH.
Qed.

Lemma script_loaded_sub_no_match (s : string) :
  script_loaded_search s = false -> script_loaded_sub 0 s = s.
Proof.
  induction s as [|c s IH]; [reflexivity |].
  cbn [script_loaded_search script_loaded_sub].
  destruct (script_loaded_at (String c s)); [discriminate |].
  intros Hs. now rewrite (IH Hs).
Qed.

Lemma delete_line_is_sub (s : string) :
  delete_line_from_string s = script_loaded_sub 0 s.
Proof.
  unfold delete_line_from_string.
  destruct (script_loaded_search s) eqn:Hs; [reflexivity |].
  now rewrite script_loaded_sub_no_match.
Qed.

Lemma dots_then_to_line_end (name rest : string) :
  ascii_in LF name = false ->
  dots_then ") loaded correctly" (name +:+ ") loaded correctly" +:+ String LF rest)
  = Some (String LF rest).
Proof.
  induction name as [|c name IH]; intros Hname; [reflexivity |].
  unfold ascii_in in Hname. cbn [list_ascii_of_string existsb] in Hname.
  apply orb_false_iff in Hname as [Hc Hname].
  change (String c name +:+ ") loaded correctly" +:+ String LF rest)
    with (String c (name +:+ ") loaded correctly" +:+ String LF rest)).
  cbn [dots_then]. rewrite Ascii.eqb_sym, Hc. now rewrite (IH Hname).
Qed.

(** The load notice is stripped whatever the script is called.  A
    notice that fills a line (any name that is not empty and has no line
    feed) is removed up to the line feed, and what follows is cleaned in
    the same way; the line it leaves empty is then dropped, so a notice
    that is all the REPL answered, and does not hold the word "error",
    is sent as the empty text. *)
Theorem load_notice_is_stripped (c : ascii) (name rest : string) :
  Ascii.eqb c LF = false ->
  ascii_in LF name = false ->
  delete_line_from_string (load_notice (String c name) +:+ nl +:+ rest) =
    nl +:+ delete_line_from_string rest
  /\ (contains "error" (load_notice (String c name) +:+ nl) = false ->
      stream_text (load_notice (String c name) +:+ nl) = EmptyString).
Proof.
  intros Hc Hname.
  assert (Hat : forall r,
            script_loaded_at (load_notice (String c name) +:+ nl +:+ r) =
            Some (String LF r)).
  { intros r. unfold script_loaded_at, load_notice.
    rewrite !str_append_assoc.
    change (strip_prefix "Script ("
              ("Script (" +:+ String c name +:+ ") loaded correctly" +:+ nl +:+ r))
      with (Some (String c (name +:+ ") loaded correctly" +:+ String LF r))).
    cbv beta iota. rewrite Hc. now apply dots_then_to_line_end. }
  assert (Hdel : forall r,
            delete_line_from_string (load_notice (String c name) +:+ nl +:+ r) =
            nl +:+ delete_line_from_string r).
  { intros r. rewrite !delete_line_is_sub.
    set (matched := "cript (" +:+ String c name +:+ ") loaded correctly").
    assert (Hshape : load_notice (String c name) +:+ nl +:+ r =
                     String "S" (matched +:+ String LF r)).
    { unfold load_notice, matched. now rewrite !str_append_assoc. }
    pose proof (Hat r) as Hatr. rewrite Hshape in Hatr |- *.
    cbn [script_loaded_sub]. rewrite Hatr.
    rewrite str_length_append.
    replace (String.length matched + String.length (String LF r)
             - String.length (String LF r)) with (String.length matched) by lia.
    rewrite script_loaded_sub_skip.
    cbn [script_loaded_sub].
    now rewrite (script_loaded_at_other LF r eq_refl). }
  split; [apply Hdel |].
  intros Herr. unfold stream_text. rewrite Herr.
  rewrite <- (str_append_empty_r (load_notice (String c name) +:+ nl)).
  rewrite str_append_assoc, Hdel. reflexivity.
Qed.

End PlainOutput.

Lemma metacall_execute_plain_witness :
  metacall_execute (sample_host (bytes_of ("1" +:+ nl)) []) "print(1)" ".py"
    (sample_world [] ∅) =
  Returns ("1" +:+ nl +:+ nl) (sample_world [] ∅).
Proof.
  exact (metacall_execute_plain (sample_host (bytes_of ("1" +:+ nl)) [])
           "print(1)" ".py" (bytes_of ("1" +:+ nl))
           (sample_world [] ∅) (sample_world [] ∅) eq_refl eq_refl).
Defined.

Lemma load_notice_is_stripped_witness :
  stream_text (load_notice "sum.py" +:+ nl) = EmptyString.
Proof.
  exact (proj2 (load_notice_is_stripped "s" "um.py" EmptyString eq_refl eq_refl)
           eq_refl).
Defined.

Lemma shell_failure_is_red_witness :
  handle
    (Host string (fun s => inr s) (fun j => j) (fun _ _ => ret ([], []))
          (fun _ => ret (2%Z, bytes_of ("ls: no such file" +:+ nl))))
    ["python"] "! ls nowhere" (sample_world [] ∅) =
  Returns (Some (error_message ("ls: no such file" +:+ nl))) (sample_world [] ∅).
Proof.
  exact (proj1 (shell_failure_is_red
           (Host string (fun s => inr s) (fun j => j) (fun _ _ => ret ([], []))
                 (fun _ => ret (2%Z, bytes_of ("ls: no such file" +:+ nl))))
           (">python" +:+ nl +:+ "! ls nowhere") "! ls nowhere"
           ("ls: no such file" +:+ nl) ["python"]
           (sample_world [] ∅) (sample_world [] ∅) 2%Z
           (bytes_of ("ls: no such file" +:+ nl))
           eq_refl eq_refl eq_refl eq_refl)).
Defined.

Lemma do_execute_raises_on_shutdown_only_witness :
  route (fst (split_magics "$shutdown")) (snd (split_magics "$shutdown")) = Shutdown.
Proof.
  exact (do_execute_raises_on_shutdown_only (sample_host [] []) "$shutdown"
           (sample_world [] ∅)
           (set_iopub ["Kernel Shutdown!"] (sample_world [] ∅))
           (UnboundLocalError "logger_output") eq_refl eq_refl).
Defined.
